(** * BufPay SDK: signing, verification and the webhook route

    A shallow embedding of [bufpay.js]: the private signer
    [#createSignature], [createPayment], [queryPayment],
    [verifyNotification] and the Express route built by
    [createBufPayMiddleware], followed by the properties of the
    signing contract.

    JavaScript strings are sequences of UTF-16 code units, bytes are
    integers in [0, 256), 32-bit words are integers with their
    wrap-around written out. An expression returns a value or throws
    an exception; a method that touches the outside (the HTTP client,
    the response of the route, the callback of the caller) extends a
    trace of events, and the promise of an [async] method is the
    outcome of its body. *)

From Stdlib Require Import String Ascii ZArith List Bool Lia.
Import ListNotations.
Local Open Scope Z_scope.
Set Warnings "-register-all".

(** * The program *)

(** ** Strings *)

(** A JavaScript string: its UTF-16 code units. *)
Definition jsstring := list Z.

(** A string literal of the source (all of them are ASCII). *)
Definition lit (s : string) : jsstring :=
  map (fun a => Z.of_N (N_of_ascii a)) (list_ascii_of_string s).
Arguments lit s%_string.

Fixpoint jsstring_eqb (s t : jsstring) : bool :=
  match s, t with
  | [], [] => true
  | c :: s', d :: t' => (c =? d) && jsstring_eqb s' t'
  | _, _ => false
  end.

(** [Array.prototype.join] on an array of strings. *)
Fixpoint join (sep : jsstring) (parts : list jsstring) : jsstring :=
  match parts with
  | [] => []
  | [p] => p
  | p :: rest => p ++ sep ++ join sep rest
  end.

Definition is_high_surrogate (c : Z) : bool := (0xD800 <=? c) && (c <=? 0xDBFF).
Definition is_low_surrogate (c : Z) : bool := (0xDC00 <=? c) && (c <=? 0xDFFF).

(** The UTF-8 bytes of a code point. *)
Definition utf8_code_point (cp : Z) : list Z :=
  if cp <? 0x80 then [cp]
  else if cp <? 0x800 then
    [Z.lor 0xC0 (Z.shiftr cp 6); Z.lor 0x80 (Z.land cp 0x3F)]
  else if cp <? 0x10000 then
    [Z.lor 0xE0 (Z.shiftr cp 12);
     Z.lor 0x80 (Z.land (Z.shiftr cp 6) 0x3F);
     Z.lor 0x80 (Z.land cp 0x3F)]
  else
    [Z.lor 0xF0 (Z.shiftr cp 18);
     Z.lor 0x80 (Z.land (Z.shiftr cp 12) 0x3F);
     Z.lor 0x80 (Z.land (Z.shiftr cp 6) 0x3F);
     Z.lor 0x80 (Z.land cp 0x3F)].

(** The encoding of a string given to [hash.update(data, 'utf8')]: a
    surrogate pair is one code point, a lone surrogate is written as
    U+FFFD. *)
Fixpoint utf8 (s : jsstring) : list Z :=
  match s with
  | [] => []
  | c :: rest =>
      if is_high_surrogate c then
        match rest with
        | d :: rest' =>
            if is_low_surrogate d then
              utf8_code_point
                (0x10000 + Z.shiftl (c - 0xD800) 10 + (d - 0xDC00))
                ++ utf8 rest'
            else utf8_code_point 0xFFFD ++ utf8 rest
        | [] => utf8_code_point 0xFFFD
        end
      else if is_low_surrogate c then utf8_code_point 0xFFFD ++ utf8 rest
      else utf8_code_point c ++ utf8 rest
  end.

(** [String.prototype.toUpperCase] and [toLowerCase] on the ASCII
    letters; the program applies the first to hexadecimal digests only,
    which are ASCII. *)
Definition upper_unit (c : Z) : Z :=
  if (97 <=? c) && (c <=? 122) then c - 32 else c.
Definition lower_unit (c : Z) : Z :=
  if (65 <=? c) && (c <=? 90) then c + 32 else c.
Definition toUpperCase (s : jsstring) : jsstring := map upper_unit s.
Definition toLowerCase (s : jsstring) : jsstring := map lower_unit s.

(** [Buffer.prototype.toString('hex')]: two lowercase digits a byte. *)
Definition hex_digit (d : Z) : Z := if d <? 10 then 48 + d else 87 + d.
Definition hex_byte (b : Z) : jsstring := [hex_digit (b / 16); hex_digit (b mod 16)].
Definition hex (bytes : list Z) : jsstring := flat_map hex_byte bytes.

(** ** The digest of [crypto.createHash('md5')]

    Node's [crypto] computes the MD5 of RFC 1321; it is written out here
    from the RFC so that signatures evaluate. *)
Module MD5.

Definition wrap (x : Z) : Z := x mod 2 ^ 32.
Definition not32 (x : Z) : Z := Z.lxor x 0xFFFFFFFF.
Definition rotl (x s : Z) : Z :=
  wrap (Z.lor (Z.shiftl x s) (Z.shiftr x (32 - s))).

Definition F (x y z : Z) : Z := Z.lor (Z.land x y) (Z.land (not32 x) z).
Definition G (x y z : Z) : Z := Z.lor (Z.land x z) (Z.land y (not32 z)).
Definition H (x y z : Z) : Z := Z.lxor (Z.lxor x y) z.
Definition I (x y z : Z) : Z := Z.lxor y (Z.lor x (not32 z)).

(** T[i] = floor(2^32 * abs(sin(i + 1))). *)
Definition T : list Z :=
  [ 0xd76aa478; 0xe8c7b756; 0x242070db; 0xc1bdceee;
    0xf57c0faf; 0x4787c62a; 0xa8304613; 0xfd469501;
    0x698098d8; 0x8b44f7af; 0xffff5bb1; 0x895cd7be;
    0x6b901122; 0xfd987193; 0xa679438e; 0x49b40821;
    0xf61e2562; 0xc040b340; 0x265e5a51; 0xe9b6c7aa;
    0xd62f105d; 0x02441453; 0xd8a1e681; 0xe7d3fbc8;
    0x21e1cde6; 0xc33707d6; 0xf4d50d87; 0x455a14ed;
    0xa9e3e905; 0xfcefa3f8; 0x676f02d9; 0x8d2a4c8a;
    0xfffa3942; 0x8771f681; 0x6d9d6122; 0xfde5380c;
    0xa4beea44; 0x4bdecfa9; 0xf6bb4b60; 0xbebfbc70;
    0x289b7ec6; 0xeaa127fa; 0xd4ef3085; 0x04881d05;
    0xd9d4d039; 0xe6db99e5; 0x1fa27cf8; 0xc4ac5665;
    0xf4292244; 0x432aff97; 0xab9423a7; 0xfc93a039;
    0x655b59c3; 0x8f0ccc92; 0xffeff47d; 0x85845dd1;
    0x6fa87e4f; 0xfe2ce6e0; 0xa3014314; 0x4e0811a1;
    0xf7537e82; 0xbd3af235; 0x2ad7d2bb; 0xeb86d391 ].

(** Rotation amounts, four a round, repeated four times. *)
Definition shifts : list Z :=
  [ 7; 12; 17; 22;  7; 12; 17; 22;  7; 12; 17; 22;  7; 12; 17; 22;
    5;  9; 14; 20;  5;  9; 14; 20;  5;  9; 14; 20;  5;  9; 14; 20;
    4; 11; 16; 23;  4; 11; 16; 23;  4; 11; 16; 23;  4; 11; 16; 23;
    6; 10; 15; 21;  6; 10; 15; 21;  6; 10; 15; 21;  6; 10; 15; 21 ].

Record state := State { sa : Z; sb : Z; sc : Z; sd : Z }.

Definition init : state :=
  State 0x67452301 0xefcdab89 0x98badcfe 0x10325476.

(** One of the 64 operations on the 16 words [X] of a block. *)
Definition step (X : list Z) (st : state) (i : nat) : state :=
  let '(State a b c d) := st in
  let zi := Z.of_nat i in
  let '(f, g) :=
    if zi <? 16 then (F b c d, zi)
    else if zi <? 32 then (G b c d, (5 * zi + 1) mod 16)
    else if zi <? 48 then (H b c d, (3 * zi + 5) mod 16)
    else (I b c d, (7 * zi) mod 16) in
  let sum := wrap (a + f + nth i T 0 + nth (Z.to_nat g) X 0) in
  State d (wrap (b + rotl sum (nth i shifts 0))) b c.

Definition word_of_bytes (b0 b1 b2 b3 : Z) : Z :=
  b0 + 256 * b1 + 65536 * b2 + 16777216 * b3.

Fixpoint words (bytes : list Z) : list Z :=
  match bytes with
  | b0 :: b1 :: b2 :: b3 :: rest => word_of_bytes b0 b1 b2 b3 :: words rest
  | _ => []
  end.

Definition bytes_of_word (w : Z) : list Z :=
  [w mod 256; (w / 256) mod 256; (w / 65536) mod 256; (w / 16777216) mod 256].

Definition process_block (st : state) (block : list Z) : state :=
  let '(State a b c d) := fold_left (step (words block)) (seq 0 64) st in
  State (wrap (sa st + a)) (wrap (sb st + b))
        (wrap (sc st + c)) (wrap (sd st + d)).

(** The message, a one bit, zeros up to 56 modulo 64, and the length
    in bits on 64 bits, low byte first. *)
Definition pad (msg : list Z) : list Z :=
  let len := Z.of_nat (List.length msg) in
  let bits := (8 * len) mod 2 ^ 64 in
  msg ++ [0x80] ++ repeat 0 (Z.to_nat ((55 - len) mod 64))
      ++ bytes_of_word (bits mod 2 ^ 32) ++ bytes_of_word (bits / 2 ^ 32).

Fixpoint blocks (n : nat) (bytes : list Z) : list (list Z) :=
  match n with
  | O => []
  | S n' => firstn 64 bytes :: blocks n' (skipn 64 bytes)
  end.

(** The 16 bytes of the digest. *)
Definition md5 (msg : list Z) : list Z :=
  let padded := pad msg in
  let '(State a b c d) :=
    fold_left process_block (blocks (List.length padded / 64) padded) init in
  bytes_of_word a ++ bytes_of_word b ++ bytes_of_word c ++ bytes_of_word d.

End MD5.

(** ** Values and exceptions *)

(** A number, as far as the program observes one: its truth value ([0],
    [-0] and [NaN] are the false ones) and its text. *)
Record number := Number { is_zero_or_NaN : bool; number_text : jsstring }.

(** The values that reach the program: what [JSON.parse] builds, and
    [undefined] for what is not there. An object is the list of its own
    properties, a key being listed once. *)
Inductive jsval :=
| VUndefined
| VNull
| VBool (b : bool)
| VNum (n : number)
| VStr (s : jsstring)
| VArr (elems : list jsval)
| VObj (props : list (jsstring * jsval)).

Inductive exn_kind := Error | TypeError.
Record exn := Exn { kind : exn_kind; message : jsstring }.

(** The outcome of an expression: a value, or an exception thrown. *)
Inductive result (A : Type) :=
| Ok (a : A)
| Throw (e : exn).
Arguments Ok {A} a.
Arguments Throw {A} e.

Definition bind {A B} (r : result A) (k : A -> result B) : result B :=
  match r with
  | Ok a => k a
  | Throw e => Throw e
  end.

Declare Scope js_scope.
Delimit Scope js_scope with js.
Notation "x <- c ;; k" := (bind c (fun x => k))
  (at level 61, c at next level, right associativity) : js_scope.
Local Open Scope js_scope.

Fixpoint mapM {A B} (f : A -> result B) (l : list A) : result (list B) :=
  match l with
  | [] => Ok []
  | x :: rest => y <- f x ;; ys <- mapM f rest ;; Ok (y :: ys)
  end.

(** [!!v]. *)
Definition ToBoolean (v : jsval) : bool :=
  match v with
  | VUndefined | VNull => false
  | VBool b => b
  | VNum n => negb (is_zero_or_NaN n)
  | VStr s => match s with [] => false | _ => true end
  | VArr _ | VObj _ => true
  end.

Fixpoint has_own (props : list (jsstring * jsval)) (key : jsstring) : bool :=
  match props with
  | [] => false
  | (k, _) :: rest => jsstring_eqb k key || has_own rest key
  end.

Fixpoint own (props : list (jsstring * jsval)) (key : jsstring) : jsval :=
  match props with
  | [] => VUndefined
  | (k, v) :: rest => if jsstring_eqb k key then v else own rest key
  end.

(** [v.key] and the [key] of a destructuring pattern, for the keys the
    program reads: none of them is a property of a prototype, of a
    string or of an array. *)
Definition prop (v : jsval) (key : jsstring) : jsval :=
  match v with
  | VObj props => own props key
  | _ => VUndefined
  end.

Definition cannot_convert : exn :=
  Exn TypeError (lit "Cannot convert object to primitive value").

(** [String(v)]. An array is joined with commas, its [null] and
    [undefined] elements written as nothing. A parsed object answers
    with [Object.prototype.toString], unless a property [toString] of
    its own hides it: no parsed value is callable, [valueOf] then
    returns the object and the conversion throws. *)
Fixpoint ToString (v : jsval) : result jsstring :=
  match v with
  | VUndefined => Ok (lit "undefined")
  | VNull => Ok (lit "null")
  | VBool true => Ok (lit "true")
  | VBool false => Ok (lit "false")
  | VNum n => Ok (number_text n)
  | VStr s => Ok s
  | VArr elems =>
      ts <- (fix items (l : list jsval) : result (list jsstring) :=
               match l with
               | [] => Ok []
               | x :: l' =>
                   t <- match x with
                        | VUndefined | VNull => Ok []
                        | _ => ToString x
                        end ;;
                   ts <- items l' ;;
                   Ok (t :: ts)
               end) elems ;;
      Ok (join (lit ",") ts)
  | VObj props =>
      if has_own props (lit "toString") then Throw cannot_convert
      else Ok (lit "[object Object]")
  end.

(** [v === s] for a string [s]. *)
Definition strict_eq_string (v : jsval) (s : jsstring) : bool :=
  match v with
  | VStr t => jsstring_eqb t s
  | _ => false
  end.

(** The source of a destructuring pattern must not be [undefined] or
    [null]; [of_undefined] and [of_null] name the first property of the
    pattern and the source in the message of each case, whose wording is
    the engine's: no property below depends on it. *)
Definition destructure (of_undefined of_null : jsstring) (v : jsval)
  : result jsval :=
  match v with
  | VUndefined =>
      Throw (Exn TypeError
               (lit "Cannot destructure property " ++ of_undefined
                    ++ lit " as it is undefined."))
  | VNull =>
      Throw (Exn TypeError
               (lit "Cannot destructure property " ++ of_null
                    ++ lit " as it is null."))
  | _ => Ok v
  end.

(** [key = dflt] in a destructuring pattern. *)
Definition prop_default (v : jsval) (key : jsstring) (dflt : jsval) : jsval :=
  match prop v key with
  | VUndefined => dflt
  | x => x
  end.

(** ** The client *)

Record BufPay := { appId : jsval; appSecret : jsval; baseUrl : jsstring }.

(** [new BufPay(appId, appSecret)]. *)
Definition new_BufPay (appId appSecret : jsval) : BufPay :=
  {| appId := appId; appSecret := appSecret;
     baseUrl := lit "https://bufpay.com/api" |}.

(** [param !== undefined && param !== null]. *)
Definition is_present (param : jsval) : bool :=
  match param with
  | VUndefined => false
  | VNull => false
  | _ => true
  end.

(** [#createSignature(...params)]. *)
Definition createSignature (params : list jsval) : result jsstring :=
  texts <- mapM ToString (filter is_present params) ;;
  let concatenated := join [] texts in
  Ok (toUpperCase (hex (MD5.md5 (utf8 concatenated)))).

(** [verifyNotification(params)]. *)
Definition verifyNotification (this : BufPay) (params : jsval) : result bool :=
  o <- destructure (lit "'aoid' of 'params'") (lit "'aoid' of 'params'")
                   params ;;
  let aoid := prop o (lit "aoid") in
  let order_id := prop o (lit "order_id") in
  let order_uid := prop o (lit "order_uid") in
  let price := prop o (lit "price") in
  let pay_price := prop o (lit "pay_price") in
  let sign := prop o (lit "sign") in
  if negb (ToBoolean aoid) || negb (ToBoolean order_id)
     || negb (ToBoolean order_uid) || negb (ToBoolean price)
     || negb (ToBoolean pay_price) || negb (ToBoolean sign)
  then Ok false
  else
    expectedSignature <-
      createSignature [aoid; order_id; order_uid; price; pay_price;
                       appSecret this] ;;
    Ok (strict_eq_string sign expectedSignature).

(** A notification body with the six fields of the gateway. *)
Definition notification (aoid order_id order_uid price pay_price sign : jsval)
  : jsval :=
  VObj [ (lit "aoid", aoid); (lit "order_id", order_id);
         (lit "order_uid", order_uid); (lit "price", price);
         (lit "pay_price", pay_price); (lit "sign", sign) ].

Definition str (s : string) : jsval := VStr (lit s).
Arguments str s%_string.

(** ** Requests, responses and the trace *)

(** What the program does to the outside, in the order it does it. *)
Inductive event :=
| HttpPost (url body content_type : jsstring)
| HttpGet (url : jsstring)
| Invoke (arg : jsval)
| Send (status : Z) (body : jsstring).

(** A computation that throws or returns and extends the trace. A
    rejected promise of an [async] method is a [Throw]. *)
Definition IO (A : Type) := list event -> result A * list event.

Definition ret {A} (a : A) : IO A := fun t => (Ok a, t).
Definition throw {A} (e : exn) : IO A := fun t => (Throw e, t).
Definition lift {A} (r : result A) : IO A := fun t => (r, t).
Definition emit (e : event) : IO unit := fun t => (Ok tt, t ++ [e]).

Definition io_bind {A B} (c : IO A) (k : A -> IO B) : IO B :=
  fun t =>
    match c t with
    | (Ok a, t') => k a t'
    | (Throw e, t') => (Throw e, t')
    end.

(** [try { body } catch (error) { handler }]. *)
Definition try_catch {A} (body : IO A) (handler : exn -> IO A) : IO A :=
  fun t =>
    match body t with
    | (Ok a, t') => (Ok a, t')
    | (Throw e, t') => handler e t'
    end.

Declare Scope io_scope.
Delimit Scope io_scope with io.
Notation "x <- c ;; k" := (io_bind c (fun x => k))
  (at level 61, c at next level, right associativity) : io_scope.
Notation "c ;; k" := (io_bind c (fun _ => k))
  (at level 61, right associativity) : io_scope.

(** What [axios] settles a request with: the [data] of a response with
    a success status, or an error with its [message]. *)
Inductive reply :=
| Resolved (data : jsval)
| Rejected (message : jsstring).

(** The remote side, as [axios.post(url, body, {headers})] and
    [axios.get(url)] see it. *)
Record axios_api := {
  post : jsstring -> jsstring -> jsstring -> reply;
  get : jsstring -> reply
}.

Definition settle (r : reply) : IO jsval :=
  match r with
  | Resolved data => ret data
  | Rejected m => throw (Exn Error m)
  end.

Definition axios_post (axios : axios_api) (url body content_type : jsstring)
  : IO jsval :=
  io_bind (emit (HttpPost url body content_type))
          (fun _ => settle (post axios url body content_type)).

Definition axios_get (axios : axios_api) (url : jsstring) : IO jsval :=
  io_bind (emit (HttpGet url)) (fun _ => settle (get axios url)).

(** ** Form bodies *)

(** [new URLSearchParams(record)]: each value becomes a string. *)
Definition URLSearchParams (record : list (jsstring * jsval))
  : result (list (jsstring * jsstring)) :=
  mapM (fun kv => v <- ToString (snd kv) ;; Ok (fst kv, v)) record.

(** The bytes that the form serializer leaves as they are: letters,
    digits, [*], [-], [.] and [_]. *)
Definition form_safe (b : Z) : bool :=
  ((48 <=? b) && (b <=? 57)) || ((65 <=? b) && (b <=? 90))
  || ((97 <=? b) && (b <=? 122))
  || (b =? 42) || (b =? 45) || (b =? 46) || (b =? 95).

Definition form_byte (b : Z) : jsstring :=
  if form_safe b then [b]
  else if b =? 32 then lit "+"
  else lit "%" ++ toUpperCase (hex_byte b).

Definition form_encode (s : jsstring) : jsstring := flat_map form_byte (utf8 s).

(** [formData.toString()]. *)
Definition URLSearchParams_toString (pairs : list (jsstring * jsstring))
  : jsstring :=
  join (lit "&")
       (map (fun kv => form_encode (fst kv) ++ lit "=" ++ form_encode (snd kv))
            pairs).

(** ** Payments *)

Local Open Scope io_scope.

(** [createPayment({name, payType, price, orderId, orderUid, notifyUrl,
    returnUrl = '', feedbackUrl = ''})]. *)
Definition createPayment (axios : axios_api) (this : BufPay) (params : jsval)
  : IO jsval :=
  o <- lift (destructure (lit "'name' of 'undefined'")
                         (lit "'name' of 'object null'") params) ;;
  let name := prop o (lit "name") in
  let payType := prop o (lit "payType") in
  let price := prop o (lit "price") in
  let orderId := prop o (lit "orderId") in
  let orderUid := prop o (lit "orderUid") in
  let notifyUrl := prop o (lit "notifyUrl") in
  let returnUrl := prop_default o (lit "returnUrl") (VStr (lit "")) in
  let feedbackUrl := prop_default o (lit "feedbackUrl") (VStr (lit "")) in
  if negb (ToBoolean name) || negb (ToBoolean payType)
     || negb (ToBoolean price) || negb (ToBoolean orderId)
     || negb (ToBoolean orderUid) || negb (ToBoolean notifyUrl)
  then throw (Exn Error (lit "Missing required payment parameters"))
  else
    signature <-
      lift (createSignature [name; payType; price; orderId; orderUid;
                             notifyUrl; returnUrl; feedbackUrl;
                             appSecret this]) ;;
    formData <-
      lift (URLSearchParams
              [ (lit "name", name); (lit "pay_type", payType);
                (lit "price", price); (lit "order_id", orderId);
                (lit "order_uid", orderUid); (lit "notify_url", notifyUrl);
                (lit "return_url", returnUrl);
                (lit "feedback_url", feedbackUrl);
                (lit "sign", VStr signature) ]) ;;
    try_catch
      (id <- lift (ToString (appId this)) ;;
       response <-
         axios_post axios
           (baseUrl this ++ lit "/pay/" ++ id ++ lit "?format=json")
           (URLSearchParams_toString formData)
           (lit "application/x-www-form-urlencoded") ;;
       ret response)
      (fun error =>
         throw (Exn Error (lit "Payment creation failed: " ++ message error))).

(** [queryPayment(aoid)]. *)
Definition queryPayment (axios : axios_api) (this : BufPay) (aoid : jsval)
  : IO jsval :=
  if negb (ToBoolean aoid)
  then throw (Exn Error (lit "AOID is required"))
  else
    try_catch
      (id <- lift (ToString aoid) ;;
       response <- axios_get axios (baseUrl this ++ lit "/query/" ++ id) ;;
       ret response)
      (fun error =>
         throw (Exn Error (lit "Payment query failed: " ++ message error))).

(** ** The webhook route *)

(** The second argument of [createBufPayMiddleware]: a function, which
    returns or throws when called, or anything else. *)
Inductive callback :=
| NotAFunction
| Function (f : jsval -> result unit).

(** The handler of the route, on the parsed body of the request. *)
Definition notify_handler (bufpay : BufPay) (onPaymentSuccess : callback)
           (body : jsval) : IO unit :=
  valid <- lift (verifyNotification bufpay body) ;;
  if negb valid
  then emit (Send 400 (lit "Invalid signature"))
  else
    match onPaymentSuccess with
    | Function f => emit (Invoke body) ;; lift (f body)
    | NotAFunction => ret tt
    end ;;
    emit (Send 200 (lit "OK")).

Record route := {
  method : jsstring;
  path : jsstring;
  handle : jsval -> IO unit
}.

(** [createBufPayMiddleware(bufpay, onPaymentSuccess)]: a router with
    one route. *)
Definition createBufPayMiddleware (bufpay : BufPay) (onPaymentSuccess : callback)
  : list route :=
  [ {| method := lit "POST"; path := lit "/bufpay/notify";
       handle := notify_handler bufpay onPaymentSuccess |} ].

Local Close Scope io_scope.

(** * The vocabulary of the properties *)

(** Bytes, the characters of an uppercase hexadecimal text, and the
    decimal digits among them. *)
Definition is_byte (b : Z) : Prop := 0 <= b < 256.

Definition is_upper_hex (c : Z) : bool :=
  ((48 <=? c) && (c <=? 57)) || ((65 <=? c) && (c <=? 70)).

Definition is_decimal (c : Z) : bool := (48 <=? c) && (c <=? 57).

(** The text of a signature over a concatenation. *)
Definition digest_text (concatenated : jsstring) : jsstring :=
  toUpperCase (hex (MD5.md5 (utf8 concatenated))).

(** The five fields that are signed, and the six that are read. *)
Definition signed_keys : list jsstring :=
  [lit "aoid"; lit "order_id"; lit "order_uid"; lit "price"; lit "pay_price"].
Definition notification_keys : list jsstring := signed_keys ++ [lit "sign"].

(** [v] converts to text without throwing. *)
Definition coercible (v : jsval) : Prop := exists t, ToString v = Ok t.

Definition is_primitive (v : jsval) : bool :=
  match v with
  | VArr _ | VObj _ => false
  | _ => true
  end.

(** A field that is neither absent nor a false value, and its text. *)
Definition field_text (p : jsval) (key text : jsstring) : Prop :=
  ToBoolean (prop p key) = true /\ ToString (prop p key) = Ok text.

(** The client and the notification of the worked example. *)
Definition example_client : BufPay := new_BufPay (str "app") (str "s3cr3t").

Definition example_notification (pay_price sign : jsval) : jsval :=
  notification (str "A1") (str "O1") (str "U1") (str "10.00") pay_price sign.

(** The text that is hashed, in the words of the contract: the absent
    values are dropped, the others are written as text one after the
    other, in the order given, with nothing between them. *)
Fixpoint signed_text (params : list jsval) : result jsstring :=
  match params with
  | [] => Ok []
  | VUndefined :: rest => signed_text rest
  | VNull :: rest => signed_text rest
  | v :: rest => t <- ToString v ;; r <- signed_text rest ;; Ok (t ++ r)
  end.

(** The signature in the words of the contract: the MD5 of that text,
    in uppercase hexadecimal. *)
Definition spec_signature (params : list jsval) : result jsstring :=
  text <- signed_text params ;; Ok (digest_text text).

(** The six mandatory fields of a payment request. *)
Definition required_keys : list jsstring :=
  [lit "name"; lit "payType"; lit "price"; lit "orderId"; lit "orderUid";
   lit "notifyUrl"].

(** An optional address as it is signed: the empty string when it is
    left out. *)
Definition optional (params : jsval) (key : jsstring) : jsval :=
  match prop params key with
  | VUndefined => VStr (lit "")
  | v => v
  end.

(** The nine values that are signed for a request, in order. *)
Definition signed_tuple (this : BufPay) (params : jsval) : list jsval :=
  [prop params (lit "name"); prop params (lit "payType");
   prop params (lit "price"); prop params (lit "orderId");
   prop params (lit "orderUid"); prop params (lit "notifyUrl");
   optional params (lit "returnUrl"); optional params (lit "feedbackUrl");
   appSecret this].

(** The eight fields of the form, under the names of the gateway. *)
Definition form_fields (params : jsval) : list (jsstring * jsval) :=
  [ (lit "name", prop params (lit "name"));
    (lit "pay_type", prop params (lit "payType"));
    (lit "price", prop params (lit "price"));
    (lit "order_id", prop params (lit "orderId"));
    (lit "order_uid", prop params (lit "orderUid"));
    (lit "notify_url", prop params (lit "notifyUrl"));
    (lit "return_url", optional params (lit "returnUrl"));
    (lit "feedback_url", optional params (lit "feedbackUrl")) ].

Definition missing_parameters : exn :=
  Exn Error (lit "Missing required payment parameters").

(** The request of the README, and a remote side that accepts
    everything. *)
Definition readme_client : BufPay :=
  new_BufPay (str "your_app_id") (str "your_app_secret").

Definition readme_request : jsval :=
  VObj [ (lit "name", str "Test Product"); (lit "payType", str "alipay");
         (lit "price", str "100.00"); (lit "orderId", str "order123");
         (lit "orderUid", str "user123");
         (lit "notifyUrl", str "https://your-domain.com/bufpay/notify");
         (lit "returnUrl", str "https://your-domain.com/success") ].

Definition accepting : axios_api :=
  {| post := fun _ _ _ => Resolved (VObj [(lit "status", str "ok")]);
     get := fun _ => Resolved (VObj [(lit "status", str "payed")]) |}.

(** A callback that returns, and one that throws. *)
Definition returning : callback := Function (fun _ => Ok tt).
Definition throwing : callback :=
  Function (fun _ => Throw (Exn Error (lit "order not found"))).

Definition verified_body : jsval :=
  example_notification (str "9.50") (str "74B9C32E2193536FABA89038613BA834").

(** A remote side that refuses everything. *)
Definition refusing : axios_api :=
  {| post := fun _ _ _ => Rejected (lit "Request failed with status code 500");
     get := fun _ => Rejected (lit "Request failed with status code 404") |}.

(** A parsed object that has no text: its own [toString] is not a
    function. *)
Definition unconvertible : jsval := VObj [(lit "toString", VNull)].

(** The address and the content type of the request of [createPayment]. *)
Definition pay_url (this : BufPay) (id : jsstring) : jsstring :=
  baseUrl this ++ lit "/pay/" ++ id ++ lit "?format=json".

Definition form_type : jsstring := lit "application/x-www-form-urlencoded".

(** The address of the request of [queryPayment]. *)
Definition query_url (this : BufPay) (id : jsstring) : jsstring :=
  baseUrl this ++ lit "/query/" ++ id.

(** The fields of the form of the README's request, as texts. *)
Definition readme_fields : list (jsstring * jsstring) :=
  [ (lit "name", lit "Test Product"); (lit "pay_type", lit "alipay");
    (lit "price", lit "100.00"); (lit "order_id", lit "order123");
    (lit "order_uid", lit "user123");
    (lit "notify_url", lit "https://your-domain.com/bufpay/notify");
    (lit "return_url", lit "https://your-domain.com/success");
    (lit "feedback_url", lit "") ].

Definition readme_signature : jsstring := lit "F0FA84733C1279A754E1743FF89B7BD7".

(** A request with the mandatory fields of the README's, and the given
    return address when there is one. *)
Definition basic_request (returnUrl : list (jsstring * jsval)) : jsval :=
  VObj ([ (lit "name", str "Test Product"); (lit "payType", str "alipay");
          (lit "price", str "100.00"); (lit "orderId", str "order123");
          (lit "orderUid", str "user123");
          (lit "notifyUrl", str "https://your-domain.com/bufpay/notify") ]
          ++ returnUrl).

(** The text of an element in the text of an array: [null] and
    [undefined] are written as nothing. *)
Definition element_text (x : jsval) : result jsstring :=
  match x with
  | VUndefined | VNull => Ok []
  | _ => ToString x
  end.

(** * Properties *)

Arguments lit : simpl never.
Arguments MD5.md5 : simpl never.
Arguments utf8 : simpl never.

(** Case analysis on [Hk : In k keys] for a list of keys that is
    written out, [tac] closing the goal for each key. *)
Ltac each_key Hk tac :=
  simpl in Hk; repeat (destruct Hk as [<- | Hk]; [tac|]); destruct Hk.

(** Comparisons of the goal between integers, decided by their bounds,
    the inner ones first. *)
Ltac no_test t :=
  lazymatch t with
  | context [if _ then _ else _] => fail
  | _ => idtac
  end.

Ltac ranges :=
  repeat (match goal with
          | |- context [?a <=? ?b] =>
              no_test a; no_test b; destruct (Z.leb_spec a b)
          | |- context [?a <? ?b] =>
              no_test a; no_test b; destruct (Z.ltb_spec a b)
          | |- context [?a =? ?b] =>
              no_test a; no_test b; destruct (Z.eqb_spec a b)
          end;
          cbv beta iota delta [andb orb negb]);
  try reflexivity; try discriminate; try lia.

(** ** The program on concrete inputs *)

(** Appendix A.5 of the RFC, and messages around the padding boundary. *)
Example md5_empty :
  hex (MD5.md5 (utf8 (lit ""))) = lit "d41d8cd98f00b204e9800998ecf8427e".
Proof. vm_compute. reflexivity. Qed.

Example md5_a :
  hex (MD5.md5 (utf8 (lit "a"))) = lit "0cc175b9c0f1b6a831c399e269772661".
Proof. vm_compute. reflexivity. Qed.

Example md5_abc :
  hex (MD5.md5 (utf8 (lit "abc"))) = lit "900150983cd24fb0d6963f7d28e17f72".
Proof. vm_compute. reflexivity. Qed.

Example md5_message_digest :
  hex (MD5.md5 (utf8 (lit "message digest")))
  = lit "f96b697d7cb7938d525a2f31aaf161d0".
Proof. vm_compute. reflexivity. Qed.

Example md5_alphabet :
  hex (MD5.md5 (utf8 (lit "abcdefghijklmnopqrstuvwxyz")))
  = lit "c3fcd3d76192e4007dfb496cca67e13b".
Proof. vm_compute. reflexivity. Qed.

Example md5_55_bytes :
  hex (MD5.md5 (repeat 97 55)) = lit "ef1772b6dff9a122358552954ad0df65".
Proof. vm_compute. reflexivity. Qed.

Example md5_56_bytes :
  hex (MD5.md5 (repeat 97 56)) = lit "3b0c8ac703f828b04c6c197006d17218".
Proof. vm_compute. reflexivity. Qed.

Example md5_64_bytes :
  hex (MD5.md5 (repeat 97 64)) = lit "014842d480b571495a4a0363793f7367".
Proof. vm_compute. reflexivity. Qed.

Example md5_120_bytes :
  hex (MD5.md5 (repeat 97 120)) = lit "5f61c0ccad4cac44c75ff505e1f1e537".
Proof. vm_compute. reflexivity. Qed.

(** U+00E9 on two bytes, then U+1F600 as the surrogate pair D83D DE00. *)
Example utf8_pair :
  utf8 [0xE9; 0xD83D; 0xDE00] = [0xC3; 0xA9; 0xF0; 0x9F; 0x98; 0x80].
Proof. vm_compute. reflexivity. Qed.

(** U+4E2D on three bytes, and a lone surrogate as U+FFFD. *)
Example utf8_three_bytes :
  utf8 [0x4E2D; 0xDC00] = [0xE4; 0xB8; 0xAD; 0xEF; 0xBF; 0xBD].
Proof. vm_compute. reflexivity. Qed.

(** Two lone surrogates that meet are a pair: the bytes of a
    concatenation are not the concatenation of the bytes. *)
Example utf8_lone_surrogates :
  utf8 [0xD83D] ++ utf8 [0xDE00] <> utf8 ([0xD83D] ++ [0xDE00]).
Proof. vm_compute. discriminate. Qed.

(** The worked example of the notification contract. *)
Example verify_example :
  verifyNotification (new_BufPay (str "app") (str "s3cr3t"))
    (notification (str "A1") (str "O1") (str "U1") (str "10.00") (str "9.50")
                  (str "74B9C32E2193536FABA89038613BA834"))
  = Ok true.
Proof. vm_compute. reflexivity. Qed.

Example verify_example_tampered :
  verifyNotification (new_BufPay (str "app") (str "s3cr3t"))
    (notification (str "A1") (str "O1") (str "U1") (str "10.00") (str "9.51")
                  (str "74B9C32E2193536FABA89038613BA834"))
  = Ok false.
Proof. vm_compute. reflexivity. Qed.

Example to_string_array :
  ToString (VArr [VStr (lit "a"); VNull; VArr [VBool true; VUndefined]; VObj []])
  = Ok (lit "a,,true,,[object Object]").
Proof. vm_compute. reflexivity. Qed.

(** ** Strings and digests *)

Lemma jsstring_eqb_eq (s t : jsstring) : jsstring_eqb s t = true <-> s = t.
Proof.
  revert t; induction s as [|c s IH]; intros [|d t]; simpl;
    try (split; [discriminate | discriminate]); try tauto.
  rewrite andb_true_iff, Z.eqb_eq, IH.
  split; [intros [-> ->]; reflexivity | intros E; inversion E; auto].
Qed.

Lemma jsstring_eqb_refl (s : jsstring) : jsstring_eqb s s = true.
Proof. apply jsstring_eqb_eq; reflexivity. Qed.

Lemma strict_eq_string_spec (v : jsval) (s : jsstring) :
  strict_eq_string v s = true <-> v = VStr s.
Proof.
  destruct v; simpl; try (split; [discriminate | discriminate]).
  rewrite jsstring_eqb_eq. split; [intros ->; reflexivity | congruence].
Qed.

Lemma join_empty_concat (parts : list jsstring) : join [] parts = concat parts.
Proof.
  induction parts as [|p [|q rest] IH]; simpl in *.
  - reflexivity.
  - symmetry; apply app_nil_r.
  - rewrite <- IH; reflexivity.
Qed.

Lemma bytes_of_word_bytes (w : Z) : Forall is_byte (MD5.bytes_of_word w).
Proof.
  unfold MD5.bytes_of_word, is_byte.
  repeat constructor; apply Z.mod_pos_bound; lia.
Qed.

Lemma md5_bytes (msg : list Z) : Forall is_byte (MD5.md5 msg).
Proof.
  unfold MD5.md5.
  destruct (fold_left _ _ _) as [a b c d].
  repeat (apply Forall_app; split); apply bytes_of_word_bytes.
Qed.

Lemma md5_length (msg : list Z) : List.length (MD5.md5 msg) = 16%nat.
Proof.
  unfold MD5.md5.
  destruct (fold_left _ _ _) as [a b c d]; reflexivity.
Qed.

Lemma hex_length (bytes : list Z) :
  List.length (hex bytes) = (2 * List.length bytes)%nat.
Proof.
  induction bytes as [|b bytes IH]; simpl; [reflexivity | rewrite IH; lia].
Qed.

Lemma upper_hex_digit (d : Z) :
  0 <= d < 16 -> is_upper_hex (upper_unit (hex_digit d)) = true.
Proof. intros Hd. unfold is_upper_hex, upper_unit, hex_digit. ranges. Qed.

Lemma upper_hex_bytes (bytes : list Z) :
  Forall is_byte bytes ->
  Forall (fun c => is_upper_hex c = true) (toUpperCase (hex bytes)).
Proof.
  induction 1 as [|b bytes Hb _ IH]; simpl; [constructor|].
  unfold is_byte in Hb.
  constructor; [|constructor; [|exact IH]]; apply upper_hex_digit.
  - split; [apply Z.div_pos; lia | apply Z.div_lt_upper_bound; lia].
  - apply Z.mod_pos_bound; lia.
Qed.

Lemma digest_text_length (s : jsstring) :
  List.length (digest_text s) = 32%nat.
Proof.
  unfold digest_text, toUpperCase.
  rewrite length_map, hex_length, md5_length; reflexivity.
Qed.

Lemma digest_text_upper_hex (s : jsstring) :
  Forall (fun c => is_upper_hex c = true) (digest_text s).
Proof. apply upper_hex_bytes, md5_bytes. Qed.

Lemma digest_text_truthy (s : jsstring) : ToBoolean (VStr (digest_text s)) = true.
Proof.
  pose proof (digest_text_length s) as L.
  simpl. destruct (digest_text s); [discriminate L | reflexivity].
Qed.

(** ** Verification of notifications *)

Lemma primitive_coercible (v : jsval) : is_primitive v = true -> coercible v.
Proof.
  destruct v as [| |[|]|n|s|l|o]; simpl; intros H; try discriminate;
    eexists; reflexivity.
Qed.

Lemma truthy_present (v : jsval) : ToBoolean v = true -> is_present v = true.
Proof. destruct v; simpl; intros H; try reflexivity; discriminate. Qed.

Lemma prop_present (p : jsval) (k : jsstring) :
  is_present (prop p k) = true -> is_present p = true.
Proof. destruct p; simpl; intros H; try reflexivity; discriminate. Qed.

(** On a payload that can be destructured, the body of the method. *)
Lemma verifyNotification_present (this : BufPay) (p : jsval) :
  is_present p = true ->
  verifyNotification this p =
  if negb (ToBoolean (prop p (lit "aoid")))
     || negb (ToBoolean (prop p (lit "order_id")))
     || negb (ToBoolean (prop p (lit "order_uid")))
     || negb (ToBoolean (prop p (lit "price")))
     || negb (ToBoolean (prop p (lit "pay_price")))
     || negb (ToBoolean (prop p (lit "sign")))
  then Ok false
  else
    bind (createSignature
            [prop p (lit "aoid"); prop p (lit "order_id");
             prop p (lit "order_uid"); prop p (lit "price");
             prop p (lit "pay_price"); appSecret this])
         (fun expectedSignature =>
            Ok (strict_eq_string (prop p (lit "sign")) expectedSignature)).
Proof.
  intros Hp. unfold verifyNotification.
  destruct p; try discriminate Hp; reflexivity.
Qed.

Lemma verifyNotification_falsy (this : BufPay) (p : jsval) (k : jsstring) :
  is_present p = true ->
  In k notification_keys ->
  ToBoolean (prop p k) = false ->
  verifyNotification this p = Ok false.
Proof.
  intros Hp Hk Hf. rewrite (verifyNotification_present this p Hp).
  unfold notification_keys, signed_keys in Hk.
  each_key Hk ltac:(rewrite Hf; simpl; rewrite ?orb_true_r; reflexivity).
Qed.

Lemma createSignature_texts (params : list jsval) (texts : list jsstring) :
  mapM ToString (filter is_present params) = Ok texts ->
  createSignature params = Ok (digest_text (concat texts)).
Proof.
  intros H. unfold createSignature. rewrite H. simpl.
  rewrite join_empty_concat. reflexivity.
Qed.

Lemma createSignature_digest (params : list jsval) (sig : jsstring) :
  createSignature params = Ok sig ->
  exists texts,
    mapM ToString (filter is_present params) = Ok texts
    /\ sig = digest_text (concat texts).
Proof.
  unfold createSignature.
  destruct (mapM ToString (filter is_present params)) as [texts|e]; simpl;
    [|discriminate].
  intros E; inversion E. exists texts. split; [reflexivity|].
  rewrite join_empty_concat. reflexivity.
Qed.

(** The signature of a notification whose five signed fields are true
    values. *)
Lemma verifyNotification_truthy (this : BufPay) (p : jsval) :
  (forall k, In k signed_keys -> ToBoolean (prop p k) = true) ->
  verifyNotification this p =
  if negb (ToBoolean (prop p (lit "sign"))) then Ok false
  else
    bind (createSignature
            [prop p (lit "aoid"); prop p (lit "order_id");
             prop p (lit "order_uid"); prop p (lit "price");
             prop p (lit "pay_price"); appSecret this])
         (fun expectedSignature =>
            Ok (strict_eq_string (prop p (lit "sign")) expectedSignature)).
Proof.
  intros H.
  assert (Hp : is_present p = true).
  { apply (prop_present p (lit "aoid")), truthy_present, H. simpl; auto. }
  rewrite (verifyNotification_present this p Hp).
  rewrite !H by (simpl; auto 6). reflexivity.
Qed.

(** C10. A field among [aoid], [order_id], [order_uid], [price],
    [pay_price] and [sign] that is the empty string makes
    [verifyNotification] return [false], whatever the other fields are,
    the right signature included, and values that could not be signed
    included: the signature is not computed. *)
Theorem verifyNotification_empty_field (this : BufPay) (p : jsval) (k : jsstring) :
  In k notification_keys ->
  prop p k = VStr (lit "") ->
  verifyNotification this p = Ok false.
Proof.
  intros Hk He.
  apply (verifyNotification_falsy this p k); trivial.
  - apply (prop_present p k). rewrite He. reflexivity.
  - rewrite He. reflexivity.
Qed.

(** An empty [aoid] under the signature that [#createSignature] gives
    for these very values. *)
Lemma verifyNotification_empty_field_witness :
  createSignature [str ""; str "O1"; str "U1"; str "10.00"; str "9.50";
                   str "s3cr3t"]
  = Ok (lit "2DEB9B1B8563C650937AD340DA01736A")
  /\ verifyNotification example_client
       (notification (str "") (str "O1") (str "U1") (str "10.00") (str "9.50")
                     (str "2DEB9B1B8563C650937AD340DA01736A"))
     = Ok false.
Proof.
  split.
  - vm_compute. reflexivity.
  - apply (verifyNotification_empty_field _ _ (lit "aoid")).
    + simpl. auto.
    + reflexivity.
Defined.

Lemma mapM_coercible (l : list jsval) :
  Forall coercible l -> exists texts, mapM ToString l = Ok texts.
Proof.
  induction 1 as [|v l [t Ht] _ [ts IH]]; simpl.
  - eexists; reflexivity.
  - rewrite Ht; simpl. rewrite IH; simpl. eexists; reflexivity.
Qed.

Lemma createSignature_coercible (params : list jsval) :
  Forall coercible params -> exists sig, createSignature params = Ok sig.
Proof.
  intros H.
  destruct (mapM_coercible (filter is_present params)) as [texts Ht].
  - rewrite Forall_forall in *. intros v Hv.
    apply filter_In in Hv. apply H, Hv.
  - eexists. apply createSignature_texts, Ht.
Qed.

(** C3, as the code has it. On a payload that is neither [null] nor
    [undefined], [verifyNotification] returns [false] when one of the
    six fields is absent, and it returns a boolean when the secret and
    the five signed fields convert to text, as every string, number and
    boolean does. *)
Theorem verifyNotification_returns (this : BufPay) (p : jsval) :
  is_present p = true ->
  (forall k, In k notification_keys -> is_present (prop p k) = false ->
             verifyNotification this p = Ok false)
  /\ (coercible (appSecret this) ->
      (forall k, In k signed_keys -> coercible (prop p k)) ->
      exists b, verifyNotification this p = Ok b).
Proof.
  intros Hp. split.
  - intros k Hk Hm. apply (verifyNotification_falsy this p k); trivial.
    destruct (prop p k); simpl in *; try discriminate; reflexivity.
  - intros Hs Hf. rewrite (verifyNotification_present this p Hp).
    match goal with |- context [if ?c then _ else _] => destruct c end.
    + exists false; reflexivity.
    + destruct (createSignature_coercible
                  [prop p (lit "aoid"); prop p (lit "order_id");
                   prop p (lit "order_uid"); prop p (lit "price");
                   prop p (lit "pay_price"); appSecret this]) as [sig E].
      * repeat (constructor; [apply Hf; simpl; auto 6|]).
        constructor; [exact Hs | constructor].
      * rewrite E. simpl. eexists; reflexivity.
Qed.

(** A body without [price], and a body of strings under a wrong
    signature. *)
Lemma verifyNotification_returns_witness :
  verifyNotification example_client
    (VObj [(lit "aoid", str "A1"); (lit "order_id", str "O1");
           (lit "order_uid", str "U1"); (lit "pay_price", str "9.50");
           (lit "sign", str "74B9C32E2193536FABA89038613BA834")])
  = Ok false
  /\ exists b,
      verifyNotification example_client
        (example_notification (str "9.50") (str "not a signature")) = Ok b.
Proof.
  split.
  - refine (proj1 (verifyNotification_returns _ _ _) (lit "price") _ _).
    + reflexivity.
    + simpl. auto 6.
    + reflexivity.
  - refine (proj2 (verifyNotification_returns _ _ _) _ _).
    + reflexivity.
    + apply primitive_coercible. reflexivity.
    + intros k Hk.
      each_key Hk ltac:(apply primitive_coercible; reflexivity).
Defined.

(** C3, as stated, fails: [verifyNotification] throws a [TypeError] on
    [null], on [undefined], and on a parsed JSON body whose [aoid] is
    the object [{"toString": 1}]. *)
Lemma verifyNotification_throws :
  (exists m, verifyNotification example_client VNull = Throw (Exn TypeError m))
  /\ (exists m,
       verifyNotification example_client VUndefined = Throw (Exn TypeError m))
  /\ verifyNotification example_client
       (notification
          (VObj [(lit "toString", VNum (Number false (lit "1")))])
          (str "O1") (str "U1") (str "10.00") (str "9.50") (str "x"))
     = Throw cannot_convert.
Proof.
  split; [|split].
  - eexists; reflexivity.
  - eexists; reflexivity.
  - reflexivity.
Qed.

(** The signature over five true fields and a present secret. *)
Lemma createSignature_fields (a o u pr pp s : jsval)
      (ta tor tu tpr tpp ts : jsstring) :
  ToBoolean a = true -> ToBoolean o = true -> ToBoolean u = true ->
  ToBoolean pr = true -> ToBoolean pp = true -> is_present s = true ->
  ToString a = Ok ta -> ToString o = Ok tor -> ToString u = Ok tu ->
  ToString pr = Ok tpr -> ToString pp = Ok tpp -> ToString s = Ok ts ->
  createSignature [a; o; u; pr; pp; s]
  = Ok (digest_text (ta ++ tor ++ tu ++ tpr ++ tpp ++ ts)).
Proof.
  intros Ba Bo Bu Bpr Bpp Bs Ta To Tu Tpr Tpp Ts.
  replace (ta ++ tor ++ tu ++ tpr ++ tpp ++ ts)
    with (concat [ta; tor; tu; tpr; tpp; ts])
    by (simpl; rewrite app_nil_r; reflexivity).
  apply createSignature_texts.
  unfold filter.
  rewrite (truthy_present a Ba), (truthy_present o Bo), (truthy_present u Bu),
    (truthy_present pr Bpr), (truthy_present pp Bpp), Bs.
  unfold mapM. rewrite Ta, To, Tu, Tpr, Tpp, Ts. reflexivity.
Qed.

(** C1, as the code has it. On a client whose secret is the string
    [secret], when each of the five signed fields is a true value (for
    a string: not empty) that converts to text without throwing, with
    texts [ta], [tor], [tu], [tpr] and [tpp], [verifyNotification]
    returns a boolean, and it is [true] if and only if [sign] is the
    string of the uppercase hexadecimal MD5 of
    [ta ++ tor ++ tu ++ tpr ++ tpp ++ secret]. On the worked example
    the right signature gives [true], and the same signature with
    [pay_price] changed to ["9.51"] gives [false]. *)
Theorem verifyNotification_iff_digest :
  (forall (this : BufPay) (p : jsval) (secret ta tor tu tpr tpp : jsstring),
      appSecret this = VStr secret ->
      field_text p (lit "aoid") ta ->
      field_text p (lit "order_id") tor ->
      field_text p (lit "order_uid") tu ->
      field_text p (lit "price") tpr ->
      field_text p (lit "pay_price") tpp ->
      exists b,
        verifyNotification this p = Ok b
        /\ (b = true <->
            prop p (lit "sign")
            = VStr (digest_text (ta ++ tor ++ tu ++ tpr ++ tpp ++ secret))))
  /\ digest_text (lit "A1O1U110.009.50s3cr3t")
     = lit "74B9C32E2193536FABA89038613BA834"
  /\ verifyNotification example_client
       (example_notification (str "9.50")
          (VStr (digest_text (lit "A1O1U110.009.50s3cr3t"))))
     = Ok true
  /\ verifyNotification example_client
       (example_notification (str "9.51")
          (VStr (digest_text (lit "A1O1U110.009.50s3cr3t"))))
     = Ok false.
Proof.
  split; [|repeat split; vm_compute; reflexivity].
  intros this p secret ta tor tu tpr tpp Hs [Ba Ta] [Bo To] [Bu Tu] [Bpr Tpr]
         [Bpp Tpp].
  rewrite verifyNotification_truthy.
  2:{ intros k Hk. each_key Hk assumption. }
  rewrite (createSignature_fields _ _ _ _ _ _ ta tor tu tpr tpp secret);
    trivial; try (rewrite Hs; reflexivity).
  simpl bind.
  destruct (ToBoolean (prop p (lit "sign"))) eqn:Bsign; simpl.
  - eexists; split; [reflexivity|]. apply strict_eq_string_spec.
  - exists false; split; [reflexivity|].
    split; [discriminate|]. intros E. rewrite E, digest_text_truthy in Bsign.
    discriminate.
Qed.

(** Numbers as [price] and [pay_price]: the texts are signed. *)
Lemma verifyNotification_iff_digest_witness :
  exists b,
    verifyNotification example_client
      (notification (str "A1") (str "O1") (str "U1")
                    (VNum (Number false (lit "10")))
                    (VNum (Number false (lit "9.5")))
                    (str "74B9C32E2193536FABA89038613BA834")) = Ok b
    /\ (b = true <->
        str "74B9C32E2193536FABA89038613BA834"
        = VStr (digest_text (lit "A1" ++ lit "O1" ++ lit "U1" ++ lit "10"
                                  ++ lit "9.5" ++ lit "s3cr3t"))).
Proof.
  refine (proj1 verifyNotification_iff_digest example_client _ _ _ _ _ _ _
                _ _ _ _ _ _);
    first [reflexivity | split; reflexivity].
Defined.

(** C1, as stated, fails: with an empty [aoid] the signature equals the
    digest of the concatenation and [verifyNotification] returns
    [false]. *)
Lemma verifyNotification_iff_digest_fails :
  let sign := VStr (digest_text (lit "" ++ lit "O1" ++ lit "U1" ++ lit "10.00"
                                     ++ lit "9.50" ++ lit "s3cr3t")) in
  verifyNotification example_client
    (notification (str "") (str "O1") (str "U1") (str "10.00") (str "9.50") sign)
  = Ok false.
Proof. vm_compute. reflexivity. Qed.

(** C2, as the code has it. For five true field values (for strings:
    not empty) and a secret, a payload that carries them with the
    signature [#createSignature] returns over them and the secret is
    verified by a client holding that secret. *)
Theorem sign_then_verify (this : BufPay) (p : jsval) (sig : jsstring) :
  (forall k, In k signed_keys -> ToBoolean (prop p k) = true) ->
  createSignature [prop p (lit "aoid"); prop p (lit "order_id");
                   prop p (lit "order_uid"); prop p (lit "price");
                   prop p (lit "pay_price"); appSecret this] = Ok sig ->
  prop p (lit "sign") = VStr sig ->
  verifyNotification this p = Ok true.
Proof.
  intros Ht Hsig Hsign.
  rewrite (verifyNotification_truthy this p Ht), Hsig, Hsign.
  destruct (createSignature_digest _ _ Hsig) as [texts [_ ->]].
  rewrite digest_text_truthy. simpl.
  rewrite jsstring_eqb_refl. reflexivity.
Qed.

Lemma sign_then_verify_witness :
  verifyNotification example_client
    (example_notification (str "9.50") (str "74B9C32E2193536FABA89038613BA834"))
  = Ok true.
Proof.
  apply (sign_then_verify example_client _
           (lit "74B9C32E2193536FABA89038613BA834")).
  - intros k Hk. each_key Hk reflexivity.
  - vm_compute. reflexivity.
  - reflexivity.
Defined.

(** C2, as stated, fails: an empty [aoid] is a present value, it is
    signed, and the payload carrying that signature is refused. *)
Lemma sign_then_verify_fails :
  exists sig,
    createSignature [str ""; str "O1"; str "U1"; str "10.00"; str "9.50";
                     appSecret example_client] = Ok sig
    /\ verifyNotification example_client
         (notification (str "") (str "O1") (str "U1") (str "10.00")
                       (str "9.50") (VStr sig))
       = Ok false.
Proof. eexists; split; vm_compute; reflexivity. Qed.

(** ** The shape of a signature *)

(** What a verified notification is made of. *)
Lemma verifyNotification_true (this : BufPay) (p : jsval) :
  verifyNotification this p = Ok true ->
  (forall k, In k notification_keys -> ToBoolean (prop p k) = true)
  /\ exists sig,
      createSignature [prop p (lit "aoid"); prop p (lit "order_id");
                       prop p (lit "order_uid"); prop p (lit "price");
                       prop p (lit "pay_price"); appSecret this] = Ok sig
      /\ prop p (lit "sign") = VStr sig.
Proof.
  intros H.
  assert (Hp : is_present p = true).
  { destruct p; try reflexivity; discriminate H. }
  rewrite (verifyNotification_present this p Hp) in H.
  match type of H with (if ?c then _ else _) = _ => destruct c eqn:Hc end;
    [discriminate H|].
  repeat (apply orb_false_iff in Hc; destruct Hc as [Hc ?]).
  split.
  - intros k Hk. each_key Hk ltac:(apply negb_false_iff; assumption).
  - destruct (createSignature _) as [sig|e]; [|discriminate H].
    simpl in H. exists sig. split; [reflexivity|].
    apply strict_eq_string_spec. congruence.
Qed.

Lemma lower_upper_hex (sig : jsstring) :
  Forall (fun c => is_upper_hex c = true) sig ->
  jsstring_eqb (toLowerCase sig) sig = forallb is_decimal sig.
Proof.
  induction 1 as [|c sig Hc _ IH]; simpl; [reflexivity|].
  rewrite IH. f_equal. revert Hc.
  unfold is_upper_hex, lower_unit, is_decimal. ranges.
Qed.

Lemma createSignature_shape (params : list jsval) (sig : jsstring) :
  createSignature params = Ok sig ->
  List.length sig = 32%nat /\ Forall (fun c => is_upper_hex c = true) sig.
Proof.
  intros H. destruct (createSignature_digest _ _ H) as [texts [_ ->]].
  split; [apply digest_text_length | apply digest_text_upper_hex].
Qed.

(** C7, as the code has it. A signature that [#createSignature] returns
    has 32 characters, each among [0-9A-F]. When [p] is verified with
    the signature [sig] and [p'] carries the same five fields under the
    lowercase variant of [sig], the answer for [p'] is whether [sig] is
    made of decimal digits only: the lowercase variant is refused as
    soon as the signature holds a letter, and accepted otherwise, being
    the signature itself. *)
Theorem signature_shape_and_case :
  (forall (params : list jsval) (sig : jsstring),
      createSignature params = Ok sig ->
      List.length sig = 32%nat
      /\ Forall (fun c => is_upper_hex c = true) sig)
  /\ (forall (this : BufPay) (p p' : jsval) (sig : jsstring),
         verifyNotification this p = Ok true ->
         prop p (lit "sign") = VStr sig ->
         (forall k, In k signed_keys -> prop p' k = prop p k) ->
         prop p' (lit "sign") = VStr (toLowerCase sig) ->
         verifyNotification this p' = Ok (forallb is_decimal sig)).
Proof.
  split; [exact createSignature_shape|].
  intros this p p' sig Hv Hsign Hsame Hlow.
  destruct (verifyNotification_true this p Hv) as [Ht [sig0 [Hsig Hs0]]].
  assert (sig0 = sig) by congruence; subst sig0.
  destruct (createSignature_shape _ _ Hsig) as [Hlen Hhex].
  rewrite verifyNotification_truthy.
  2:{ intros k Hk. rewrite (Hsame k Hk). apply Ht.
      unfold notification_keys. apply in_or_app; left; exact Hk. }
  rewrite (Hsame (lit "aoid")), (Hsame (lit "order_id")),
    (Hsame (lit "order_uid")), (Hsame (lit "price")),
    (Hsame (lit "pay_price")) by (simpl; auto 6).
  rewrite Hsig, Hlow. simpl.
  rewrite lower_upper_hex by exact Hhex.
  destruct sig as [|c sig]; [discriminate Hlen | reflexivity].
Qed.

(** The worked example: its signature holds letters, and its lowercase
    variant is refused. *)
Lemma signature_shape_and_case_witness :
  verifyNotification example_client
    (example_notification (str "9.50") (str "74b9c32e2193536faba89038613ba834"))
  = Ok false.
Proof.
  apply (proj2 signature_shape_and_case example_client
               (example_notification (str "9.50")
                  (str "74B9C32E2193536FABA89038613BA834"))
               _ (lit "74B9C32E2193536FABA89038613BA834")).
  - vm_compute. reflexivity.
  - reflexivity.
  - intros k Hk. each_key Hk reflexivity.
  - reflexivity.
Defined.

(** C7, as stated, fails: the signature of this notification is made of
    decimal digits only, so that its lowercase variant is the signature
    itself and is verified. *)
Lemma lowercase_signature_verified :
  digest_text (lit "A4589206O1U110.009.50s3cr3t")
  = lit "34044954609376701566206862648364"
  /\ toLowerCase (lit "34044954609376701566206862648364")
     = lit "34044954609376701566206862648364"
  /\ verifyNotification example_client
       (notification (str "A4589206") (str "O1") (str "U1") (str "10.00")
                     (str "9.50")
                     (VStr (toLowerCase (lit "34044954609376701566206862648364"))))
     = Ok true.
Proof. repeat split; vm_compute; reflexivity. Qed.

(** ** The signing function *)

Lemma is_present_spec (v : jsval) :
  is_present v = true <-> v <> VUndefined /\ v <> VNull.
Proof.
  destruct v; simpl; split; try (intros _; split; discriminate);
    try discriminate; try reflexivity; intros [A B]; congruence.
Qed.

Lemma signed_text_filter (params : list jsval) :
  signed_text params
  = bind (mapM ToString (filter is_present params))
         (fun texts => Ok (concat texts)).
Proof.
  induction params as [|v rest IH]; [reflexivity|].
  assert (Hcons : is_present v = true ->
                  signed_text (v :: rest)
                  = bind (ToString v)
                         (fun t => bind (signed_text rest)
                                        (fun r => Ok (t ++ r)))).
  { destruct v; try discriminate; reflexivity. }
  destruct (is_present v) eqn:Hv.
  - rewrite (Hcons eq_refl), IH. simpl filter. rewrite Hv. simpl mapM.
    destruct (ToString v) as [t|e]; [|reflexivity]. simpl.
    destruct (mapM ToString (filter is_present rest)); reflexivity.
  - simpl filter. rewrite Hv. rewrite <- IH.
    destruct v; try discriminate Hv; reflexivity.
Qed.

Lemma createSignature_refines (params : list jsval) :
  createSignature params = spec_signature params.
Proof.
  unfold createSignature, spec_signature. rewrite signed_text_filter.
  destruct (mapM ToString (filter is_present params)) as [texts|e];
    [|reflexivity].
  simpl. rewrite join_empty_concat. reflexivity.
Qed.

Lemma createSignature_absent (before after : list jsval) (v : jsval) :
  is_present v = false ->
  createSignature (before ++ v :: after) = createSignature (before ++ after).
Proof.
  intros Hv. unfold createSignature.
  rewrite !filter_app. simpl filter. rewrite Hv. reflexivity.
Qed.

Lemma createSignature_strings (strings : list jsstring) :
  createSignature (map VStr strings) = Ok (digest_text (concat strings)).
Proof.
  apply createSignature_texts.
  induction strings as [|s strings IH]; [reflexivity|].
  simpl. simpl in IH. rewrite IH. reflexivity.
Qed.

(** C4. [#createSignature] is a function of the ordered list of its
    arguments and of nothing else. It keeps the arguments that are
    neither [null] nor [undefined], the empty string among them; it is
    the signature of the contract: the texts of the kept values one
    after the other, hashed with MD5 and written in uppercase
    hexadecimal. So an absent argument changes nothing wherever it
    stands, a list of strings is signed as its concatenation, and two
    lists are signed as the concatenation of their texts. *)
Theorem createSignature_contract :
  (forall params v,
      In v (filter is_present params)
      <-> In v params /\ v <> VUndefined /\ v <> VNull)
  /\ (forall params,
         In (VStr (lit "")) params ->
         In (VStr (lit "")) (filter is_present params))
  /\ (forall params, createSignature params = spec_signature params)
  /\ (forall before after v,
         is_present v = false ->
         createSignature (before ++ v :: after)
         = createSignature (before ++ after))
  /\ (forall strings,
         createSignature (map VStr strings)
         = Ok (digest_text (concat strings)))
  /\ (forall l1 l2 t1 t2,
         signed_text l1 = Ok t1 -> signed_text l2 = Ok t2 ->
         createSignature (l1 ++ l2) = Ok (digest_text (t1 ++ t2)))
  /\ (forall params sig,
         createSignature params = Ok sig ->
         Forall (fun c => is_upper_hex c = true) sig).
Proof.
  split; [|split; [|split; [|split; [|split; [|split]]]]].
  - intros params v. rewrite filter_In, is_present_spec. reflexivity.
  - intros params H. apply filter_In. split; [exact H | reflexivity].
  - exact createSignature_refines.
  - exact createSignature_absent.
  - exact createSignature_strings.
  - intros l1 l2 t1 t2 H1 H2.
    rewrite signed_text_filter in H1, H2.
    destruct (mapM ToString (filter is_present l1)) as [ts1|] eqn:E1;
      [|discriminate H1].
    destruct (mapM ToString (filter is_present l2)) as [ts2|] eqn:E2;
      [|discriminate H2].
    simpl in H1, H2. inversion H1; inversion H2; subst.
    rewrite <- concat_app. apply createSignature_texts.
    rewrite filter_app.
    clear H1 H2. revert ts1 E1.
    induction (filter is_present l1) as [|x xs IH]; intros ts1 E1; simpl in *.
    + inversion E1; subst. exact E2.
    + destruct (ToString x) as [t|]; [|discriminate E1]. simpl in *.
      destruct (mapM ToString xs) as [ts|]; [|discriminate E1].
      simpl in E1. inversion E1; subst.
      rewrite (IH ts eq_refl). reflexivity.
  - intros params sig H. apply (createSignature_shape params sig H).
Qed.

(** The arguments of [createPayment]'s call with a [null] feedback
    address, and without it. *)
Lemma createSignature_contract_witness :
  createSignature [str "Test Product"; str "alipay"; str ""; VNull;
                   str "s3cr3t"]
  = createSignature [str "Test Product"; str "alipay"; str ""; str "s3cr3t"].
Proof.
  apply (proj1 (proj2 (proj2 (proj2 createSignature_contract)))
               [str "Test Product"; str "alipay"; str ""] [str "s3cr3t"] VNull).
  reflexivity.
Defined.

(** ** Payment creation *)

Example createPayment_readme :
  createPayment accepting readme_client readme_request []
  = (Ok (VObj [(lit "status", str "ok")]),
     [HttpPost
        (lit "https://bufpay.com/api/pay/your_app_id?format=json")
        (lit ("name=Test+Product&pay_type=alipay&price=100.00"
              ++ "&order_id=order123&order_uid=user123"
              ++ "&notify_url=https%3A%2F%2Fyour-domain.com%2Fbufpay%2Fnotify"
              ++ "&return_url=https%3A%2F%2Fyour-domain.com%2Fsuccess"
              ++ "&feedback_url=&sign=F0FA84733C1279A754E1743FF89B7BD7"))
        (lit "application/x-www-form-urlencoded")]).
Proof. vm_compute. reflexivity. Qed.

Lemma prop_default_optional (params : jsval) (key : jsstring) :
  prop_default params key (VStr (lit "")) = optional params key.
Proof. reflexivity. Qed.

(** On a request that can be destructured, the body of the method. *)
Lemma createPayment_present (axios : axios_api) (this : BufPay)
      (params : jsval) (t : list event) :
  is_present params = true ->
  createPayment axios this params t =
  if negb (ToBoolean (prop params (lit "name")))
     || negb (ToBoolean (prop params (lit "payType")))
     || negb (ToBoolean (prop params (lit "price")))
     || negb (ToBoolean (prop params (lit "orderId")))
     || negb (ToBoolean (prop params (lit "orderUid")))
     || negb (ToBoolean (prop params (lit "notifyUrl")))
  then (Throw missing_parameters, t)
  else
    io_bind (lift (createSignature (signed_tuple this params)))
      (fun signature =>
         io_bind
           (lift (URLSearchParams
                    (form_fields params ++ [(lit "sign", VStr signature)])))
           (fun formData =>
              try_catch
                (io_bind (lift (ToString (appId this)))
                   (fun id =>
                      io_bind
                        (axios_post axios
                           (baseUrl this ++ lit "/pay/" ++ id
                                    ++ lit "?format=json")
                           (URLSearchParams_toString formData)
                           (lit "application/x-www-form-urlencoded"))
                        (fun response => ret response)))
                (fun error =>
                   throw (Exn Error (lit "Payment creation failed: "
                                         ++ message error)))))
      t.
Proof.
  intros Hp. unfold createPayment.
  destruct params; try discriminate Hp;
    unfold io_bind at 1; unfold lift at 1; simpl destructure; cbv iota beta;
    match goal with |- context [if ?c then _ else _] => destruct c end;
    reflexivity.
Qed.

Lemma createPayment_falsy (axios : axios_api) (this : BufPay) (params : jsval)
      (k : jsstring) (t : list event) :
  is_present params = true ->
  In k required_keys ->
  ToBoolean (prop params k) = false ->
  createPayment axios this params t = (Throw missing_parameters, t).
Proof.
  intros Hp Hk Hf. rewrite (createPayment_present axios this params t Hp).
  unfold required_keys in Hk.
  each_key Hk ltac:(rewrite Hf; simpl; rewrite ?orb_true_r; reflexivity).
Qed.

(** C5. A request in which one of [name], [payType], [price],
    [orderId], [orderUid] and [notifyUrl] is missing is refused with the
    error "Missing required payment parameters", whatever the other
    fields, the client and the remote side are: the trace is left as it
    was, with no request sent, and the error is this one even where
    signing the fields would have thrown. *)
Theorem createPayment_missing_field (axios : axios_api) (this : BufPay)
        (params : jsval) (k : jsstring) (t : list event) :
  is_present params = true ->
  In k required_keys ->
  is_present (prop params k) = false ->
  createPayment axios this params t
  = (Throw (Exn Error (lit "Missing required payment parameters")), t).
Proof.
  intros Hp Hk Hm. apply (createPayment_falsy axios this params k t Hp Hk).
  destruct (prop params k); simpl in *; try discriminate; reflexivity.
Qed.

(** The request of the README without its [notifyUrl], and with a
    [returnUrl] that cannot be signed. *)
Lemma createPayment_missing_field_witness :
  createSignature
    [VObj [(lit "toString", VNull)]] = Throw cannot_convert
  /\ createPayment accepting readme_client
       (VObj [ (lit "name", str "Test Product"); (lit "payType", str "alipay");
               (lit "price", str "100.00"); (lit "orderId", str "order123");
               (lit "orderUid", str "user123");
               (lit "returnUrl", VObj [(lit "toString", VNull)]) ]) []
     = (Throw (Exn Error (lit "Missing required payment parameters")), []).
Proof.
  split; [reflexivity|].
  apply (createPayment_missing_field _ _ _ (lit "notifyUrl")).
  - reflexivity.
  - simpl. auto 7.
  - reflexivity.
Defined.

Lemma mapM_ok_coercible (l : list jsval) (texts : list jsstring) :
  mapM ToString l = Ok texts -> Forall coercible l.
Proof.
  revert texts; induction l as [|v l IH]; intros texts H; [constructor|].
  simpl in H. destruct (ToString v) as [t|] eqn:Ev; [|discriminate H].
  simpl in H. destruct (mapM ToString l) as [ts|]; [|discriminate H].
  constructor; [exists t; exact Ev | apply (IH ts); reflexivity].
Qed.

Lemma createSignature_ok_coercible (params : list jsval) (sig : jsstring) :
  createSignature params = Ok sig -> Forall coercible params.
Proof.
  intros H. destruct (createSignature_digest _ _ H) as [texts [Ht _]].
  apply mapM_ok_coercible in Ht. rewrite Forall_forall in *.
  intros v Hv. destruct (is_present v) eqn:Ev.
  - apply Ht, filter_In. split; assumption.
  - destruct v; try discriminate Ev; eexists; reflexivity.
Qed.

Lemma URLSearchParams_coercible (record : list (jsstring * jsval)) :
  Forall (fun kv => coercible (snd kv)) record ->
  exists fields, URLSearchParams record = Ok fields.
Proof.
  unfold URLSearchParams.
  induction 1 as [|[k v] record [s Hs] _ [fields IH]]; simpl.
  - eexists; reflexivity.
  - simpl in Hs. rewrite Hs. simpl. rewrite IH. simpl. eexists; reflexivity.
Qed.

Lemma URLSearchParams_snoc (record : list (jsstring * jsval))
      (fields : list (jsstring * jsstring)) (k s : jsstring) :
  URLSearchParams record = Ok fields ->
  URLSearchParams (record ++ [(k, VStr s)]) = Ok (fields ++ [(k, s)]).
Proof.
  unfold URLSearchParams. revert fields.
  induction record as [|[k' v] record IH]; intros fields H; simpl in *.
  - inversion H; reflexivity.
  - destruct (ToString v) as [t|]; [|discriminate H]. simpl in *.
    destruct (mapM _ record) as [fs|]; [|discriminate H]. simpl in *.
    inversion H; subst. rewrite (IH fs eq_refl). reflexivity.
Qed.

Lemma URLSearchParams_length (record : list (jsstring * jsval))
      (fields : list (jsstring * jsstring)) :
  URLSearchParams record = Ok fields ->
  List.length fields = List.length record.
Proof.
  unfold URLSearchParams. revert fields.
  induction record as [|[k v] record IH]; intros fields H; simpl in *.
  - inversion H; reflexivity.
  - destruct (ToString v) as [t|]; [|discriminate H]. simpl in *.
    destruct (mapM _ record) as [fs|]; [|discriminate H]. simpl in *.
    inversion H; subst. simpl. rewrite (IH fs eq_refl). reflexivity.
Qed.

Lemma join_snoc (sep : jsstring) (parts : list jsstring) (last : jsstring) :
  parts <> [] -> join sep (parts ++ [last]) = join sep parts ++ sep ++ last.
Proof.
  induction parts as [|p [|q rest] IH]; intros Hne.
  - contradiction.
  - reflexivity.
  - change (join sep ((p :: q :: rest) ++ [last]))
      with (p ++ sep ++ join sep ((q :: rest) ++ [last])).
    rewrite IH by discriminate.
    change (join sep (p :: q :: rest)) with (p ++ sep ++ join sep (q :: rest)).
    rewrite <- !app_assoc. reflexivity.
Qed.

Lemma utf8_ascii (c : Z) (s : jsstring) :
  0 <= c < 128 -> utf8 (c :: s) = c :: utf8 s.
Proof.
  intros Hc. unfold utf8; fold utf8.
  unfold is_high_surrogate, is_low_surrogate, utf8_code_point. ranges.
Qed.

Lemma upper_hex_range (c : Z) : is_upper_hex c = true -> 48 <= c <= 70.
Proof. unfold is_upper_hex. ranges. Qed.

Lemma utf8_upper_hex (s : jsstring) :
  Forall (fun c => is_upper_hex c = true) s -> utf8 s = s.
Proof.
  induction 1 as [|c s Hc _ IH]; [reflexivity|].
  apply upper_hex_range in Hc. rewrite utf8_ascii, IH by lia. reflexivity.
Qed.

Lemma form_encode_upper_hex (s : jsstring) :
  Forall (fun c => is_upper_hex c = true) s -> form_encode s = s.
Proof.
  intros H. unfold form_encode. rewrite (utf8_upper_hex s H).
  induction H as [|c s Hc _ IH]; [reflexivity|].
  simpl. rewrite IH. f_equal. revert Hc.
  unfold form_byte, form_safe, is_upper_hex. ranges.
Qed.

Lemma optional_omitted (params : jsval) (key : jsstring) :
  prop params key = VUndefined -> optional params key = VStr (lit "").
Proof. intros H. unfold optional. rewrite H. reflexivity. Qed.

(** C6. For a request whose mandatory fields are true values and whose
    fields can be signed, [createPayment] posts one form, and its last
    field [sign] is the signature of the nine values [name], [payType],
    [price], [orderId], [orderUid], [notifyUrl], [returnUrl],
    [feedbackUrl] and the secret, in this order, where a [returnUrl] or
    a [feedbackUrl] that is left out stands as the empty string. *)
Theorem createPayment_signs_tuple :
  (forall (axios : axios_api) (this : BufPay) (params : jsval)
          (sig : jsstring) (t : list event),
      (forall k, In k required_keys -> ToBoolean (prop params k) = true) ->
      createSignature (signed_tuple this params) = Ok sig ->
      coercible (appId this) ->
      exists url fields,
        URLSearchParams (form_fields params) = Ok fields
        /\ snd (createPayment axios this params t)
           = t ++ [HttpPost url
                     (URLSearchParams_toString fields ++ lit "&sign=" ++ sig)
                     (lit "application/x-www-form-urlencoded")])
  /\ (forall (this : BufPay) (params : jsval),
         signed_tuple this params
         = [prop params (lit "name"); prop params (lit "payType");
            prop params (lit "price"); prop params (lit "orderId");
            prop params (lit "orderUid"); prop params (lit "notifyUrl");
            optional params (lit "returnUrl");
            optional params (lit "feedbackUrl"); appSecret this])
  /\ (forall (params : jsval) (key : jsstring),
         prop params key = VUndefined -> optional params key = VStr (lit "")).
Proof.
  split; [|split; [reflexivity | exact optional_omitted]].
  intros axios this params sig t Ht Hsig [id Hid].
  assert (Hp : is_present params = true).
  { apply (prop_present params (lit "name")), truthy_present, Ht.
    simpl; auto. }
  destruct (URLSearchParams_coercible (form_fields params)) as [fields Hf].
  { pose proof (createSignature_ok_coercible _ _ Hsig) as Hc.
    unfold signed_tuple in Hc. unfold form_fields.
    repeat match goal with
           | H : Forall _ (_ :: _) |- _ => inversion_clear H
           end.
    repeat (constructor; [assumption|]). constructor. }
  exists (baseUrl this ++ lit "/pay/" ++ id ++ lit "?format=json"), fields.
  split; [exact Hf|].
  rewrite (createPayment_present axios this params t Hp).
  rewrite (Ht (lit "name")), (Ht (lit "payType")), (Ht (lit "price")),
    (Ht (lit "orderId")), (Ht (lit "orderUid")), (Ht (lit "notifyUrl"))
    by (simpl; auto 7).
  cbv beta iota delta [negb orb].
  unfold io_bind at 1. unfold lift at 1. rewrite Hsig.
  unfold io_bind at 1. unfold lift at 1.
  rewrite (URLSearchParams_snoc _ _ (lit "sign") sig Hf).
  unfold try_catch, io_bind, lift, axios_post, emit. rewrite Hid.
  assert (Hbody : URLSearchParams_toString (fields ++ [(lit "sign", sig)])
                  = URLSearchParams_toString fields ++ lit "&sign=" ++ sig).
  { unfold URLSearchParams_toString. rewrite map_app. simpl map at 2.
    rewrite join_snoc.
    - rewrite (form_encode_upper_hex sig)
        by (apply (createSignature_shape _ _ Hsig)).
      reflexivity.
    - apply URLSearchParams_length in Hf.
      destruct fields; [discriminate Hf | discriminate]. }
  rewrite Hbody.
  destruct (post axios _ _ _); reflexivity.
Qed.

(** The request of the README, which leaves [feedbackUrl] out. *)
Lemma createPayment_signs_tuple_witness :
  exists url fields,
    URLSearchParams (form_fields readme_request) = Ok fields
    /\ snd (createPayment accepting readme_client readme_request [])
       = [] ++ [HttpPost url
                  (URLSearchParams_toString fields
                     ++ lit "&sign=" ++ lit "F0FA84733C1279A754E1743FF89B7BD7")
                  (lit "application/x-www-form-urlencoded")].
Proof.
  apply (proj1 createPayment_signs_tuple accepting readme_client readme_request
               (lit "F0FA84733C1279A754E1743FF89B7BD7") []).
  - intros k Hk. each_key Hk reflexivity.
  - vm_compute. reflexivity.
  - exists (lit "your_app_id"). reflexivity.
Defined.

(** ** Payment query *)

(** C9. [queryPayment] refuses an identifier that is absent or the
    empty string with the error "AOID is required" and sends nothing.
    For an identifier that is a true value with text [id], when the
    remote side answers the request with [data], it sends the one
    request [GET baseUrl/query/id] and returns [data] as it is. *)
Theorem queryPayment_contract :
  (forall (axios : axios_api) (this : BufPay) (aoid : jsval) (t : list event),
      is_present aoid = false \/ aoid = VStr (lit "") ->
      queryPayment axios this aoid t
      = (Throw (Exn Error (lit "AOID is required")), t))
  /\ (forall (axios : axios_api) (this : BufPay) (aoid : jsval)
             (id : jsstring) (data : jsval) (t : list event),
         ToBoolean aoid = true ->
         ToString aoid = Ok id ->
         get axios (baseUrl this ++ lit "/query/" ++ id) = Resolved data ->
         queryPayment axios this aoid t
         = (Ok data, t ++ [HttpGet (baseUrl this ++ lit "/query/" ++ id)])).
Proof.
  split.
  - intros axios this aoid t H. unfold queryPayment.
    replace (ToBoolean aoid) with false; [reflexivity|].
    destruct H as [H | ->]; [|reflexivity].
    destruct aoid; try discriminate H; reflexivity.
  - intros axios this aoid id data t Hb Hid Hget. unfold queryPayment.
    rewrite Hb. cbv beta iota delta [negb].
    unfold try_catch, io_bind, lift, axios_get, emit.
    rewrite Hid, Hget. reflexivity.
Qed.

Lemma queryPayment_contract_witness :
  queryPayment accepting readme_client VUndefined []
  = (Throw (Exn Error (lit "AOID is required")), [])
  /\ queryPayment accepting readme_client (str "A1") []
     = (Ok (VObj [(lit "status", str "payed")]),
        [] ++ [HttpGet (baseUrl readme_client ++ lit "/query/" ++ lit "A1")]).
Proof.
  split.
  - apply (proj1 queryPayment_contract). left; reflexivity.
  - apply (proj2 queryPayment_contract); reflexivity.
Defined.

(** ** The webhook route *)

(** C8, as the code has it. The router has the one route
    [POST /bufpay/notify]. On a body that [verifyNotification] refuses,
    its handler answers 400 "Invalid signature" and does not call the
    callback. On a body that is verified, it answers 200 "OK" when no
    function was given; it calls a given function once, with the body,
    and then answers 200 "OK" when the call returns; when the call
    throws, the exception leaves the handler and no answer is sent. *)
Theorem webhook_route (bufpay : BufPay) (onPaymentSuccess : callback) :
  exists r,
    createBufPayMiddleware bufpay onPaymentSuccess = [r]
    /\ method r = lit "POST"
    /\ path r = lit "/bufpay/notify"
    /\ (forall body t,
           verifyNotification bufpay body = Ok false ->
           handle r body t
           = (Ok tt, t ++ [Send 400 (lit "Invalid signature")]))
    /\ (forall body t,
           verifyNotification bufpay body = Ok true ->
           onPaymentSuccess = NotAFunction ->
           handle r body t = (Ok tt, t ++ [Send 200 (lit "OK")]))
    /\ (forall body t f,
           verifyNotification bufpay body = Ok true ->
           onPaymentSuccess = Function f ->
           f body = Ok tt ->
           handle r body t
           = (Ok tt, t ++ [Invoke body; Send 200 (lit "OK")]))
    /\ (forall body t f e,
           verifyNotification bufpay body = Ok true ->
           onPaymentSuccess = Function f ->
           f body = Throw e ->
           handle r body t = (Throw e, t ++ [Invoke body])).
Proof.
  eexists. split; [reflexivity|].
  split; [reflexivity|]. split; [reflexivity|].
  cbv beta iota delta [handle].
  unfold notify_handler, io_bind, lift, emit, ret.
  repeat split.
  - intros body t Hv. rewrite Hv. reflexivity.
  - intros body t Hv ->. rewrite Hv. reflexivity.
  - intros body t f Hv -> Hf. rewrite Hv, Hf. simpl.
    rewrite <- app_assoc. reflexivity.
  - intros body t f e Hv -> Hf. rewrite Hv, Hf. reflexivity.
Qed.

(** The worked example with a callback that returns. *)
Lemma webhook_route_witness :
  exists r,
    createBufPayMiddleware example_client returning = [r]
    /\ handle r verified_body []
       = (Ok tt, [] ++ [Invoke verified_body; Send 200 (lit "OK")]).
Proof.
  destruct (webhook_route example_client returning)
    as [r [Hr [_ [_ [_ [_ [H _]]]]]]].
  exists r. split; [exact Hr|].
  apply (H verified_body [] (fun _ => Ok tt)).
  - vm_compute. reflexivity.
  - reflexivity.
  - reflexivity.
Defined.

(** C8, as stated, fails: on a verified body and a callback that
    throws, the handler calls the callback and sends no answer, so that
    there is no 200. *)
Lemma webhook_no_answer :
  verifyNotification example_client verified_body = Ok true
  /\ notify_handler example_client throwing verified_body []
     = (Throw (Exn Error (lit "order not found")), [Invoke verified_body]).
Proof. split; vm_compute; reflexivity. Qed.

(** * Further properties *)

(** ** Payment creation: the request and its outcome *)

(** A request that passes the guard reaches the signer. *)
Ltac accepted Ht Hp :=
  rewrite (createPayment_present _ _ _ _ Hp);
  rewrite (Ht (lit "name")), (Ht (lit "payType")), (Ht (lit "price")),
    (Ht (lit "orderId")), (Ht (lit "orderUid")), (Ht (lit "notifyUrl"))
    by (simpl; auto 7);
  cbv beta iota delta [negb orb].

Lemma required_present (params : jsval) :
  (forall k, In k required_keys -> ToBoolean (prop params k) = true) ->
  is_present params = true.
Proof.
  intros Ht. apply (prop_present params (lit "name")), truthy_present, Ht.
  simpl; auto.
Qed.

(** The one request of an accepted payment, and what becomes of its
    answer. *)
Lemma createPayment_run (axios : axios_api) (this : BufPay) (params : jsval)
      (sig id : jsstring) (fields : list (jsstring * jsstring))
      (t : list event) :
  (forall k, In k required_keys -> ToBoolean (prop params k) = true) ->
  createSignature (signed_tuple this params) = Ok sig ->
  URLSearchParams (form_fields params) = Ok fields ->
  ToString (appId this) = Ok id ->
  createPayment axios this params t
  = (match post axios (pay_url this id)
                 (URLSearchParams_toString (fields ++ [(lit "sign", sig)]))
                 form_type with
     | Resolved data => Ok data
     | Rejected m =>
         Throw (Exn Error (lit "Payment creation failed: " ++ m))
     end,
     t ++ [HttpPost (pay_url this id)
             (URLSearchParams_toString (fields ++ [(lit "sign", sig)]))
             form_type]).
Proof.
  intros Ht Hsig Hf Hid.
  pose proof (required_present params Ht) as Hp.
  accepted Ht Hp.
  unfold io_bind at 1. unfold lift at 1. rewrite Hsig.
  unfold io_bind at 1. unfold lift at 1.
  rewrite (URLSearchParams_snoc _ _ (lit "sign") sig Hf).
  unfold try_catch, io_bind, lift, axios_post, emit. rewrite Hid.
  unfold pay_url, form_type.
  destruct (post axios _ _ _); reflexivity.
Qed.

(** X1. When the gateway answers the request of an accepted payment
    with [data], [createPayment] returns [data] as it is, after one
    POST to [baseUrl/pay/appId?format=json] with the form as body. *)
Theorem createPayment_returns_data (axios : axios_api) (this : BufPay)
        (params data : jsval) (sig id : jsstring)
        (fields : list (jsstring * jsstring)) (t : list event) :
  (forall k, In k required_keys -> ToBoolean (prop params k) = true) ->
  createSignature (signed_tuple this params) = Ok sig ->
  URLSearchParams (form_fields params) = Ok fields ->
  ToString (appId this) = Ok id ->
  post axios (pay_url this id)
       (URLSearchParams_toString (fields ++ [(lit "sign", sig)])) form_type
  = Resolved data ->
  createPayment axios this params t
  = (Ok data,
     t ++ [HttpPost (pay_url this id)
             (URLSearchParams_toString (fields ++ [(lit "sign", sig)]))
             form_type]).
Proof.
  intros Ht Hsig Hf Hid Hpost.
  rewrite (createPayment_run axios this params sig id fields t Ht Hsig Hf Hid).
  rewrite Hpost. reflexivity.
Qed.

(** X2. When the request of an accepted payment is rejected with the
    message [m], [createPayment] fails with the error "Payment creation
    failed: m"; the one POST was sent and none follows it. *)
Theorem createPayment_wraps_rejection (axios : axios_api) (this : BufPay)
        (params : jsval) (sig id m : jsstring)
        (fields : list (jsstring * jsstring)) (t : list event) :
  (forall k, In k required_keys -> ToBoolean (prop params k) = true) ->
  createSignature (signed_tuple this params) = Ok sig ->
  URLSearchParams (form_fields params) = Ok fields ->
  ToString (appId this) = Ok id ->
  post axios (pay_url this id)
       (URLSearchParams_toString (fields ++ [(lit "sign", sig)])) form_type
  = Rejected m ->
  createPayment axios this params t
  = (Throw (Exn Error (lit "Payment creation failed: " ++ m)),
     t ++ [HttpPost (pay_url this id)
             (URLSearchParams_toString (fields ++ [(lit "sign", sig)]))
             form_type]).
Proof.
  intros Ht Hsig Hf Hid Hpost.
  rewrite (createPayment_run axios this params sig id fields t Ht Hsig Hf Hid).
  rewrite Hpost. reflexivity.
Qed.

Lemma readme_required (k : jsstring) :
  In k required_keys -> ToBoolean (prop readme_request k) = true.
Proof. intros Hk. each_key Hk reflexivity. Qed.

Lemma readme_signed :
  createSignature (signed_tuple readme_client readme_request)
  = Ok readme_signature.
Proof. vm_compute. reflexivity. Qed.

Lemma createPayment_returns_data_witness :
  createPayment accepting readme_client readme_request []
  = (Ok (VObj [(lit "status", str "ok")]),
     [] ++ [HttpPost (pay_url readme_client (lit "your_app_id"))
              (URLSearchParams_toString
                 (readme_fields ++ [(lit "sign", readme_signature)]))
              form_type]).
Proof.
  apply (createPayment_returns_data accepting readme_client readme_request).
  - exact readme_required.
  - exact readme_signed.
  - reflexivity.
  - reflexivity.
  - reflexivity.
Defined.

Lemma createPayment_wraps_rejection_witness :
  createPayment refusing readme_client readme_request []
  = (Throw (Exn Error (lit "Payment creation failed: "
                           ++ lit "Request failed with status code 500")),
     [] ++ [HttpPost (pay_url readme_client (lit "your_app_id"))
              (URLSearchParams_toString
                 (readme_fields ++ [(lit "sign", readme_signature)]))
              form_type]).
Proof.
  apply (createPayment_wraps_rejection refusing readme_client readme_request).
  - exact readme_required.
  - exact readme_signed.
  - reflexivity.
  - reflexivity.
  - reflexivity.
Defined.

(** X3. The form of an accepted payment carries nine fields in this
    order, under the names of the gateway: [name], [pay_type], [price],
    [order_id], [order_uid], [notify_url], [return_url], [feedback_url]
    and [sign], each with the text of its value, whatever the answer of
    the gateway is. *)
Theorem createPayment_wire_format (axios : axios_api) (this : BufPay)
        (params : jsval) (tn tpt tpr toi tou tnu tru tfu sig id : jsstring)
        (t : list event) :
  (forall k, In k required_keys -> ToBoolean (prop params k) = true) ->
  ToString (prop params (lit "name")) = Ok tn ->
  ToString (prop params (lit "payType")) = Ok tpt ->
  ToString (prop params (lit "price")) = Ok tpr ->
  ToString (prop params (lit "orderId")) = Ok toi ->
  ToString (prop params (lit "orderUid")) = Ok tou ->
  ToString (prop params (lit "notifyUrl")) = Ok tnu ->
  ToString (optional params (lit "returnUrl")) = Ok tru ->
  ToString (optional params (lit "feedbackUrl")) = Ok tfu ->
  createSignature (signed_tuple this params) = Ok sig ->
  ToString (appId this) = Ok id ->
  snd (createPayment axios this params t)
  = t ++ [HttpPost (pay_url this id)
            (URLSearchParams_toString
               [ (lit "name", tn); (lit "pay_type", tpt); (lit "price", tpr);
                 (lit "order_id", toi); (lit "order_uid", tou);
                 (lit "notify_url", tnu); (lit "return_url", tru);
                 (lit "feedback_url", tfu); (lit "sign", sig) ])
            form_type].
Proof.
  intros Ht Hn Hpt Hpr Hoi Hou Hnu Hru Hfu Hsig Hid.
  rewrite (createPayment_run axios this params sig id
             [ (lit "name", tn); (lit "pay_type", tpt); (lit "price", tpr);
               (lit "order_id", toi); (lit "order_uid", tou);
               (lit "notify_url", tnu); (lit "return_url", tru);
               (lit "feedback_url", tfu) ] t Ht Hsig); trivial.
  unfold URLSearchParams, form_fields, mapM, fst, snd.
  rewrite Hn, Hpt, Hpr, Hoi, Hou, Hnu, Hru, Hfu. reflexivity.
Qed.

Lemma createPayment_wire_format_witness :
  snd (createPayment refusing readme_client readme_request [])
  = [] ++ [HttpPost (pay_url readme_client (lit "your_app_id"))
             (URLSearchParams_toString
                [ (lit "name", lit "Test Product");
                  (lit "pay_type", lit "alipay"); (lit "price", lit "100.00");
                  (lit "order_id", lit "order123");
                  (lit "order_uid", lit "user123");
                  (lit "notify_url",
                   lit "https://your-domain.com/bufpay/notify");
                  (lit "return_url", lit "https://your-domain.com/success");
                  (lit "feedback_url", lit "");
                  (lit "sign", readme_signature) ])
             form_type].
Proof.
  apply (createPayment_wire_format refusing readme_client readme_request);
    first [exact readme_required | exact readme_signed | reflexivity].
Defined.

(** X4. A request that is [null] or [undefined] makes [createPayment]
    fail with a [TypeError], before the guard on the fields; nothing is
    sent. *)
Theorem createPayment_no_request (axios : axios_api) (this : BufPay)
        (params : jsval) (t : list event) :
  is_present params = false ->
  exists m, createPayment axios this params t = (Throw (Exn TypeError m), t).
Proof.
  intros Hp. destruct params; try discriminate Hp; eexists; reflexivity.
Qed.

Lemma createPayment_no_request_witness :
  exists m,
    createPayment accepting readme_client VUndefined []
    = (Throw (Exn TypeError m), []).
Proof. apply createPayment_no_request. reflexivity. Defined.

(** X5. A mandatory field that is there with a false value, the empty
    string, the number zero or [false], is refused like a missing one:
    the error is "Missing required payment parameters" and nothing is
    sent. *)
Theorem createPayment_false_value (axios : axios_api) (this : BufPay)
        (params : jsval) (k : jsstring) (t : list event) :
  In k required_keys ->
  prop params k = VStr (lit "")
  \/ prop params k = VBool false
  \/ (exists n, prop params k = VNum n /\ is_zero_or_NaN n = true) ->
  createPayment axios this params t
  = (Throw (Exn Error (lit "Missing required payment parameters")), t).
Proof.
  intros Hk Hv.
  apply (createPayment_falsy axios this params k t); trivial.
  - apply (prop_present params k).
    destruct Hv as [-> | [-> | [n [-> _]]]]; reflexivity.
  - destruct Hv as [-> | [-> | [n [-> Hn]]]];
      simpl; try rewrite Hn; reflexivity.
Qed.

(** The README's request with the price as the number 0. *)
Lemma createPayment_false_value_witness :
  createPayment accepting readme_client
    (VObj [ (lit "name", str "Test Product"); (lit "payType", str "alipay");
            (lit "price", VNum (Number true (lit "0")));
            (lit "orderId", str "order123"); (lit "orderUid", str "user123");
            (lit "notifyUrl", str "https://your-domain.com/bufpay/notify") ])
    []
  = (Throw (Exn Error (lit "Missing required payment parameters")), []).
Proof.
  apply (createPayment_false_value _ _ _ (lit "price")).
  - simpl. auto 7.
  - right. right. eexists. split; reflexivity.
Defined.

(** X6. When a field of an accepted request cannot be signed, the
    exception of the signer leaves [createPayment] as it is, outside the
    [try]: it is not reported as a creation failure, and nothing is
    sent. *)
Theorem createPayment_unsignable (axios : axios_api) (this : BufPay)
        (params : jsval) (e : exn) (t : list event) :
  (forall k, In k required_keys -> ToBoolean (prop params k) = true) ->
  createSignature (signed_tuple this params) = Throw e ->
  createPayment axios this params t = (Throw e, t).
Proof.
  intros Ht Hsig. pose proof (required_present params Ht) as Hp.
  accepted Ht Hp.
  unfold io_bind at 1. unfold lift at 1. rewrite Hsig. reflexivity.
Qed.

(** The README's request with an object without text as its name. *)
Lemma createPayment_unsignable_witness :
  createPayment accepting readme_client
    (VObj [ (lit "name", unconvertible); (lit "payType", str "alipay");
            (lit "price", str "100.00"); (lit "orderId", str "order123");
            (lit "orderUid", str "user123");
            (lit "notifyUrl", str "https://your-domain.com/bufpay/notify") ])
    []
  = (Throw cannot_convert, []).
Proof.
  apply createPayment_unsignable.
  - intros k Hk. each_key Hk reflexivity.
  - reflexivity.
Defined.

Lemma signed_text_app (l1 l2 : list jsval) :
  signed_text (l1 ++ l2)
  = bind (signed_text l1)
         (fun t1 => bind (signed_text l2) (fun t2 => Ok (t1 ++ t2))).
Proof.
  induction l1 as [|v l1 IH].
  - simpl. destruct (signed_text l2); reflexivity.
  - assert (Hcons : forall rest,
               is_present v = true ->
               signed_text (v :: rest)
               = bind (ToString v)
                      (fun t => bind (signed_text rest)
                                     (fun r => Ok (t ++ r)))).
    { intros rest. destruct v; try discriminate; reflexivity. }
    destruct (is_present v) eqn:Hv.
    + change ((v :: l1) ++ l2) with (v :: l1 ++ l2).
      rewrite !Hcons, IH by reflexivity.
      destruct (ToString v) as [t|]; [|reflexivity]. simpl.
      destruct (signed_text l1) as [t1|]; [|reflexivity]. simpl.
      destruct (signed_text l2) as [t2|]; [|reflexivity]. simpl.
      rewrite app_assoc. reflexivity.
    + destruct v; try discriminate Hv; exact IH.
Qed.

(** A value without characters adds nothing to what is signed. *)
Lemma createSignature_silent (before after : list jsval) (v w : jsval) :
  signed_text [v] = Ok [] -> signed_text [w] = Ok [] ->
  createSignature (before ++ v :: after) = createSignature (before ++ w :: after).
Proof.
  intros Hv Hw. rewrite !createSignature_refines. unfold spec_signature.
  change (v :: after) with ([v] ++ after).
  change (w :: after) with ([w] ++ after).
  rewrite !signed_text_app, Hv, Hw. reflexivity.
Qed.

(** X7. A [returnUrl] that is [null] is not replaced by the default.
    For an accepted request [params] whose [returnUrl] is [null], and
    the request [params'] that leaves [returnUrl] out and is the same
    otherwise, [createPayment] sends the same [sign] in both forms, the
    signer dropping [null]; it sends [return_url] as the text "null" for
    the first and as the empty text for the second. *)
Theorem createPayment_null_returnUrl (axios : axios_api) (this : BufPay)
        (params params' : jsval) (tn tpt tpr toi tou tnu tfu sig id : jsstring)
        (t : list event) :
  prop params (lit "returnUrl") = VNull ->
  prop params' (lit "returnUrl") = VUndefined ->
  (forall k, In k (lit "feedbackUrl" :: required_keys) ->
             prop params' k = prop params k) ->
  (forall k, In k required_keys -> ToBoolean (prop params k) = true) ->
  ToString (prop params (lit "name")) = Ok tn ->
  ToString (prop params (lit "payType")) = Ok tpt ->
  ToString (prop params (lit "price")) = Ok tpr ->
  ToString (prop params (lit "orderId")) = Ok toi ->
  ToString (prop params (lit "orderUid")) = Ok tou ->
  ToString (prop params (lit "notifyUrl")) = Ok tnu ->
  ToString (optional params (lit "feedbackUrl")) = Ok tfu ->
  createSignature (signed_tuple this params) = Ok sig ->
  ToString (appId this) = Ok id ->
  snd (createPayment axios this params t)
  = t ++ [HttpPost (pay_url this id)
            (URLSearchParams_toString
               [ (lit "name", tn); (lit "pay_type", tpt); (lit "price", tpr);
                 (lit "order_id", toi); (lit "order_uid", tou);
                 (lit "notify_url", tnu); (lit "return_url", lit "null");
                 (lit "feedback_url", tfu); (lit "sign", sig) ])
            form_type]
  /\ snd (createPayment axios this params' t)
     = t ++ [HttpPost (pay_url this id)
               (URLSearchParams_toString
                  [ (lit "name", tn); (lit "pay_type", tpt);
                    (lit "price", tpr); (lit "order_id", toi);
                    (lit "order_uid", tou); (lit "notify_url", tnu);
                    (lit "return_url", lit ""); (lit "feedback_url", tfu);
                    (lit "sign", sig) ])
               form_type].
Proof.
  intros Hnull Hundef Hsame Ht Hn Hpt Hpr Hoi Hou Hnu Hfu Hsig Hid.
  assert (Hopt : optional params' (lit "feedbackUrl")
                 = optional params (lit "feedbackUrl")).
  { unfold optional. rewrite Hsame by (simpl; auto). reflexivity. }
  assert (Ht' : forall k, In k required_keys ->
                          ToBoolean (prop params' k) = true).
  { intros k Hk. rewrite Hsame by (right; exact Hk). apply Ht, Hk. }
  assert (Hsig' : createSignature (signed_tuple this params') = Ok sig).
  { rewrite <- Hsig.
    unfold signed_tuple, optional at 1 3. rewrite Hnull, Hundef, Hopt.
    rewrite !Hsame by (simpl; auto 8).
    apply (createSignature_silent
             [prop params (lit "name"); prop params (lit "payType");
              prop params (lit "price"); prop params (lit "orderId");
              prop params (lit "orderUid"); prop params (lit "notifyUrl")]);
      reflexivity. }
  split.
  - rewrite (createPayment_run axios this params sig id
               [ (lit "name", tn); (lit "pay_type", tpt); (lit "price", tpr);
                 (lit "order_id", toi); (lit "order_uid", tou);
                 (lit "notify_url", tnu); (lit "return_url", lit "null");
                 (lit "feedback_url", tfu) ] t Ht Hsig); trivial.
    unfold URLSearchParams, form_fields, optional at 1.
    rewrite Hnull. unfold mapM, fst, snd.
    rewrite Hn, Hpt, Hpr, Hoi, Hou, Hnu, Hfu. reflexivity.
  - rewrite (createPayment_run axios this params' sig id
               [ (lit "name", tn); (lit "pay_type", tpt); (lit "price", tpr);
                 (lit "order_id", toi); (lit "order_uid", tou);
                 (lit "notify_url", tnu); (lit "return_url", lit "");
                 (lit "feedback_url", tfu) ] t Ht' Hsig'); trivial.
    unfold URLSearchParams, form_fields, optional at 1.
    rewrite Hundef, Hopt. rewrite !Hsame by (simpl; auto 8).
    unfold mapM, fst, snd.
    rewrite Hn, Hpt, Hpr, Hoi, Hou, Hnu, Hfu. reflexivity.
Qed.

(** The mandatory fields of the README's request, with a [returnUrl]
    that is [null] and without one. *)
Lemma createPayment_null_returnUrl_witness :
  snd (createPayment accepting readme_client
         (basic_request [(lit "returnUrl", VNull)]) [])
  = [] ++ [HttpPost (pay_url readme_client (lit "your_app_id"))
             (URLSearchParams_toString
                [ (lit "name", lit "Test Product");
                  (lit "pay_type", lit "alipay"); (lit "price", lit "100.00");
                  (lit "order_id", lit "order123");
                  (lit "order_uid", lit "user123");
                  (lit "notify_url",
                   lit "https://your-domain.com/bufpay/notify");
                  (lit "return_url", lit "null"); (lit "feedback_url", lit "");
                  (lit "sign", lit "3E7D301610B6A5E88465492F6A8B4852") ])
             form_type]
  /\ snd (createPayment accepting readme_client (basic_request []) [])
     = [] ++ [HttpPost (pay_url readme_client (lit "your_app_id"))
                (URLSearchParams_toString
                   [ (lit "name", lit "Test Product");
                     (lit "pay_type", lit "alipay");
                     (lit "price", lit "100.00");
                     (lit "order_id", lit "order123");
                     (lit "order_uid", lit "user123");
                     (lit "notify_url",
                      lit "https://your-domain.com/bufpay/notify");
                     (lit "return_url", lit ""); (lit "feedback_url", lit "");
                     (lit "sign", lit "3E7D301610B6A5E88465492F6A8B4852") ])
                form_type].
Proof.
  apply (createPayment_null_returnUrl accepting readme_client
           (basic_request [(lit "returnUrl", VNull)]) (basic_request [])).
  - reflexivity.
  - reflexivity.
  - intros k Hk. each_key Hk reflexivity.
  - intros k Hk. each_key Hk reflexivity.
  - reflexivity.
  - reflexivity.
  - reflexivity.
  - reflexivity.
  - reflexivity.
  - reflexivity.
  - reflexivity.
  - vm_compute. reflexivity.
  - reflexivity.
Defined.

(** X8. Whatever it is given, [createPayment] either throws with the
    trace as it was, or sends one POST to [baseUrl/pay/appId?format=json]
    with the form content type and nothing else; it returns a value only
    when that POST was answered, and the value is the answer; a
    rejection is reported as "Payment creation failed". *)
Theorem createPayment_one_request (axios : axios_api) (this : BufPay)
        (params : jsval) (t : list event) :
  (exists e, createPayment axios this params t = (Throw e, t))
  \/ (exists id body,
        ToString (appId this) = Ok id
        /\ createPayment axios this params t
           = (match post axios (pay_url this id) body form_type with
              | Resolved data => Ok data
              | Rejected m =>
                  Throw (Exn Error (lit "Payment creation failed: " ++ m))
              end,
              t ++ [HttpPost (pay_url this id) body form_type])).
Proof.
  destruct (is_present params) eqn:Hp.
  2:{ left. destruct params; try discriminate Hp; eexists; reflexivity. }
  rewrite (createPayment_present axios this params t Hp).
  match goal with |- context [if ?c then _ else _] => destruct c end.
  { left. eexists; reflexivity. }
  unfold io_bind at 1 3. unfold lift at 1 4.
  destruct (createSignature (signed_tuple this params)) as [sig|e].
  2:{ left. eexists; reflexivity. }
  unfold io_bind at 1 3. unfold lift at 1 3.
  destruct (URLSearchParams _) as [formData|e].
  2:{ left. eexists; reflexivity. }
  unfold try_catch, io_bind, lift, axios_post, emit.
  destruct (ToString (appId this)) as [id|e] eqn:Hid.
  2:{ left. eexists; reflexivity. }
  right. exists id, (URLSearchParams_toString formData).
  split; [reflexivity|]. unfold pay_url, form_type.
  destruct (post axios _ _ _); reflexivity.
Qed.

(** ** Payment query: the request and its outcome *)

(** X9. When the request of [queryPayment] is rejected with the message
    [m], the method fails with the error "Payment query failed: m"; the
    one GET was sent, to [baseUrl/query/] followed by the text of the
    identifier as it is, and none follows it. *)
Theorem queryPayment_wraps_rejection (axios : axios_api) (this : BufPay)
        (aoid : jsval) (id m : jsstring) (t : list event) :
  ToBoolean aoid = true ->
  ToString aoid = Ok id ->
  get axios (query_url this id) = Rejected m ->
  queryPayment axios this aoid t
  = (Throw (Exn Error (lit "Payment query failed: " ++ m)),
     t ++ [HttpGet (query_url this id)]).
Proof.
  intros Hb Hid Hget. unfold queryPayment. rewrite Hb.
  cbv beta iota delta [negb].
  unfold try_catch, io_bind, lift, axios_get, emit.
  rewrite Hid. fold (query_url this id). rewrite Hget. reflexivity.
Qed.

Lemma queryPayment_wraps_rejection_witness :
  queryPayment refusing readme_client (str "a/b?c") []
  = (Throw (Exn Error (lit "Payment query failed: "
                           ++ lit "Request failed with status code 404")),
     [] ++ [HttpGet (query_url readme_client (lit "a/b?c"))]).
Proof.
  apply queryPayment_wraps_rejection; reflexivity.
Defined.

(** X10. An identifier that is a true value without text, such as a
    parsed object with a [toString] of its own, makes [queryPayment]
    fail inside its [try]: the [TypeError] is reported as "Payment query
    failed" with its message, and nothing is sent. *)
Theorem queryPayment_unconvertible (axios : axios_api) (this : BufPay)
        (aoid : jsval) (e : exn) (t : list event) :
  ToBoolean aoid = true ->
  ToString aoid = Throw e ->
  queryPayment axios this aoid t
  = (Throw (Exn Error (lit "Payment query failed: " ++ message e)), t).
Proof.
  intros Hb He. unfold queryPayment. rewrite Hb.
  cbv beta iota delta [negb].
  unfold try_catch, io_bind, lift. rewrite He. reflexivity.
Qed.

Lemma queryPayment_unconvertible_witness :
  queryPayment accepting readme_client unconvertible []
  = (Throw (Exn Error (lit "Payment query failed: "
                           ++ lit "Cannot convert object to primitive value")),
     []).
Proof.
  apply (queryPayment_unconvertible _ _ _ cannot_convert); reflexivity.
Defined.

(** X11. Whatever it is given, [queryPayment] either throws with the
    trace as it was, or sends one GET to [baseUrl/query/] followed by
    the text of the identifier and nothing else; it returns a value only
    when that GET was answered, and the value is the answer. *)
Theorem queryPayment_one_request (axios : axios_api) (this : BufPay)
        (aoid : jsval) (t : list event) :
  (exists e, queryPayment axios this aoid t = (Throw e, t))
  \/ (exists id,
        ToString aoid = Ok id
        /\ queryPayment axios this aoid t
           = (match get axios (query_url this id) with
              | Resolved data => Ok data
              | Rejected m =>
                  Throw (Exn Error (lit "Payment query failed: " ++ m))
              end,
              t ++ [HttpGet (query_url this id)])).
Proof.
  unfold queryPayment. destruct (ToBoolean aoid).
  2:{ left. eexists; reflexivity. }
  cbv beta iota delta [negb].
  unfold try_catch, io_bind, lift, axios_get, emit.
  destruct (ToString aoid) as [id|e].
  2:{ left. eexists; reflexivity. }
  right. exists id. split; [reflexivity|]. unfold query_url.
  destruct (get axios _); reflexivity.
Qed.

(** ** Verification: what is read and what is accepted *)

(** X12. [verifyNotification] reads the six fields of the payload and
    nothing else: two payloads that agree on them get the same answer,
    whatever other fields they carry. *)
Theorem verifyNotification_six_fields (this : BufPay) (p p' : jsval) :
  is_present p = true -> is_present p' = true ->
  (forall k, In k notification_keys -> prop p' k = prop p k) ->
  verifyNotification this p' = verifyNotification this p.
Proof.
  intros Hp Hp' Hsame.
  rewrite (verifyNotification_present this p Hp),
    (verifyNotification_present this p' Hp').
  rewrite (Hsame (lit "aoid")), (Hsame (lit "order_id")),
    (Hsame (lit "order_uid")), (Hsame (lit "price")),
    (Hsame (lit "pay_price")), (Hsame (lit "sign")) by (simpl; auto 7).
  reflexivity.
Qed.

(** The worked example with two more fields in front. *)
Lemma verifyNotification_six_fields_witness :
  verifyNotification example_client
    (VObj [ (lit "status", str "payed"); (lit "extra", VNull);
            (lit "aoid", str "A1"); (lit "order_id", str "O1");
            (lit "order_uid", str "U1"); (lit "price", str "10.00");
            (lit "pay_price", str "9.50");
            (lit "sign", str "74B9C32E2193536FABA89038613BA834") ])
  = verifyNotification example_client verified_body.
Proof.
  apply verifyNotification_six_fields.
  - reflexivity.
  - reflexivity.
  - intros k Hk. each_key Hk reflexivity.
Defined.

(** X13. A payload that is a string, a number, a boolean or an array
    has none of the six fields: [verifyNotification] returns [false],
    and does not throw. *)
Theorem verifyNotification_not_an_object (this : BufPay) (p : jsval) :
  is_present p = true ->
  (forall props, p <> VObj props) ->
  verifyNotification this p = Ok false.
Proof.
  intros Hp Hno.
  apply (verifyNotification_falsy this p (lit "aoid") Hp).
  - simpl; auto.
  - destruct p; try reflexivity. destruct (Hno props eq_refl).
Qed.

Lemma verifyNotification_not_an_object_witness :
  verifyNotification example_client
    (VArr [str "A1"; str "O1"; str "U1"; str "10.00"; str "9.50";
           str "74B9C32E2193536FABA89038613BA834"])
  = Ok false.
Proof.
  apply verifyNotification_not_an_object.
  - reflexivity.
  - discriminate.
Defined.

(** X14. What [verifyNotification] accepts has six fields that are all
    true values, and its [sign] is the string that the signer returns
    for its five fields and the secret, 32 characters among [0-9A-F]: a
    signature given as a number or an array, or written with lowercase
    letters, is never accepted. *)
Theorem verifyNotification_accepts (this : BufPay) (p : jsval) :
  verifyNotification this p = Ok true ->
  (forall k, In k notification_keys -> ToBoolean (prop p k) = true)
  /\ exists sig,
      createSignature [prop p (lit "aoid"); prop p (lit "order_id");
                       prop p (lit "order_uid"); prop p (lit "price");
                       prop p (lit "pay_price"); appSecret this] = Ok sig
      /\ prop p (lit "sign") = VStr sig
      /\ List.length sig = 32%nat
      /\ Forall (fun c => is_upper_hex c = true) sig.
Proof.
  intros H. destruct (verifyNotification_true this p H) as [Ht [sig [Hs E]]].
  split; [exact Ht|]. exists sig. split; [exact Hs|]. split; [exact E|].
  apply (createSignature_shape _ _ Hs).
Qed.

Lemma verifyNotification_accepts_witness :
  (forall k, In k notification_keys ->
             ToBoolean (prop verified_body k) = true)
  /\ exists sig,
      createSignature [prop verified_body (lit "aoid");
                       prop verified_body (lit "order_id");
                       prop verified_body (lit "order_uid");
                       prop verified_body (lit "price");
                       prop verified_body (lit "pay_price");
                       appSecret example_client] = Ok sig
      /\ prop verified_body (lit "sign") = VStr sig
      /\ List.length sig = 32%nat
      /\ Forall (fun c => is_upper_hex c = true) sig.
Proof.
  apply (verifyNotification_accepts example_client).
  vm_compute. reflexivity.
Defined.

(** X15. The signed texts are written with nothing between them, so the
    signature does not tell where a field ends: two payloads whose five
    signed fields are true values with the same concatenation get the
    same answer under the same [sign]. *)
Theorem verifyNotification_boundaries (this : BufPay) (p p' : jsval)
        (secret ta tor tu tpr tpp ta' tor' tu' tpr' tpp' : jsstring) :
  appSecret this = VStr secret ->
  field_text p (lit "aoid") ta -> field_text p (lit "order_id") tor ->
  field_text p (lit "order_uid") tu -> field_text p (lit "price") tpr ->
  field_text p (lit "pay_price") tpp ->
  field_text p' (lit "aoid") ta' -> field_text p' (lit "order_id") tor' ->
  field_text p' (lit "order_uid") tu' -> field_text p' (lit "price") tpr' ->
  field_text p' (lit "pay_price") tpp' ->
  ta ++ tor ++ tu ++ tpr ++ tpp = ta' ++ tor' ++ tu' ++ tpr' ++ tpp' ->
  prop p' (lit "sign") = prop p (lit "sign") ->
  verifyNotification this p' = verifyNotification this p.
Proof.
  intros Hs [Ba Ta] [Bo To] [Bu Tu] [Bpr Tpr] [Bpp Tpp]
         [Ba' Ta'] [Bo' To'] [Bu' Tu'] [Bpr' Tpr'] [Bpp' Tpp'] Hcat Hsign.
  rewrite (verifyNotification_truthy this p)
    by (intros k Hk; each_key Hk assumption).
  rewrite (verifyNotification_truthy this p')
    by (intros k Hk; each_key Hk assumption).
  rewrite (createSignature_fields
             (prop p (lit "aoid")) (prop p (lit "order_id"))
             (prop p (lit "order_uid")) (prop p (lit "price"))
             (prop p (lit "pay_price")) (appSecret this)
             ta tor tu tpr tpp secret);
    trivial; try (rewrite Hs; reflexivity).
  rewrite (createSignature_fields
             (prop p' (lit "aoid")) (prop p' (lit "order_id"))
             (prop p' (lit "order_uid")) (prop p' (lit "price"))
             (prop p' (lit "pay_price")) (appSecret this)
             ta' tor' tu' tpr' tpp' secret);
    trivial; try (rewrite Hs; reflexivity).
  rewrite Hsign.
  replace (ta' ++ tor' ++ tu' ++ tpr' ++ tpp' ++ secret)
    with ((ta' ++ tor' ++ tu' ++ tpr' ++ tpp') ++ secret)
    by (rewrite <- !app_assoc; reflexivity).
  rewrite <- Hcat. rewrite <- !app_assoc. reflexivity.
Qed.

(** The worked example with "A1", "O1" read as "A", "1O1": the
    signature of the one verifies the other. *)
Lemma verifyNotification_boundaries_witness :
  verifyNotification example_client
    (notification (str "A") (str "1O1") (str "U1") (str "10.00") (str "9.50")
                  (str "74B9C32E2193536FABA89038613BA834"))
  = verifyNotification example_client verified_body.
Proof.
  apply (verifyNotification_boundaries example_client _ _ (lit "s3cr3t")
           (lit "A1") (lit "O1") (lit "U1") (lit "10.00") (lit "9.50")
           (lit "A") (lit "1O1") (lit "U1") (lit "10.00") (lit "9.50"));
    first [reflexivity | split; reflexivity].
Defined.

(** X16. A client built without a secret, [null] or [undefined],
    verifies against the digest of the five fields alone: the secret is
    dropped by the signer like any absent value. *)
Theorem verifyNotification_without_secret (this : BufPay) (p : jsval)
        (ta tor tu tpr tpp : jsstring) :
  is_present (appSecret this) = false ->
  field_text p (lit "aoid") ta -> field_text p (lit "order_id") tor ->
  field_text p (lit "order_uid") tu -> field_text p (lit "price") tpr ->
  field_text p (lit "pay_price") tpp ->
  exists b,
    verifyNotification this p = Ok b
    /\ (b = true <->
        prop p (lit "sign") = VStr (digest_text (ta ++ tor ++ tu ++ tpr ++ tpp))).
Proof.
  intros Hs [Ba Ta] [Bo To] [Bu Tu] [Bpr Tpr] [Bpp Tpp].
  rewrite (verifyNotification_truthy this p)
    by (intros k Hk; each_key Hk assumption).
  assert (E : createSignature
                [prop p (lit "aoid"); prop p (lit "order_id");
                 prop p (lit "order_uid"); prop p (lit "price");
                 prop p (lit "pay_price"); appSecret this]
              = Ok (digest_text (ta ++ tor ++ tu ++ tpr ++ tpp))).
  { replace (ta ++ tor ++ tu ++ tpr ++ tpp)
      with (concat [ta; tor; tu; tpr; tpp])
      by (simpl; rewrite app_nil_r; reflexivity).
    apply createSignature_texts. unfold filter.
    rewrite (truthy_present _ Ba), (truthy_present _ Bo),
      (truthy_present _ Bu), (truthy_present _ Bpr), (truthy_present _ Bpp), Hs.
    unfold mapM. rewrite Ta, To, Tu, Tpr, Tpp. reflexivity. }
  rewrite E. simpl bind.
  destruct (ToBoolean (prop p (lit "sign"))) eqn:Bsign; simpl.
  - eexists; split; [reflexivity|]. apply strict_eq_string_spec.
  - exists false; split; [reflexivity|].
    split; [discriminate|]. intros E'.
    rewrite E', digest_text_truthy in Bsign. discriminate.
Qed.

Lemma verifyNotification_without_secret_witness :
  exists b,
    verifyNotification (new_BufPay (str "app") VUndefined)
      (example_notification (str "9.50") (str "74B9C32E2193536FABA89038613BA834"))
    = Ok b
    /\ (b = true <->
        str "74B9C32E2193536FABA89038613BA834"
        = VStr (digest_text (lit "A1" ++ lit "O1" ++ lit "U1" ++ lit "10.00"
                                  ++ lit "9.50"))).
Proof.
  refine (verifyNotification_without_secret
            (new_BufPay (str "app") VUndefined) _ _ _ _ _ _ _ _ _ _ _ _);
    first [reflexivity | split; reflexivity].
Defined.

(** ** The webhook route: what it never does *)

(** X17. When [verifyNotification] throws on the body, as it does on
    [null], the handler of the route throws the same exception: it sends
    no answer, not even 400, and does not call the callback. *)
Theorem notify_handler_throws (bufpay : BufPay) (onPaymentSuccess : callback)
        (body : jsval) (e : exn) (t : list event) :
  verifyNotification bufpay body = Throw e ->
  notify_handler bufpay onPaymentSuccess body t = (Throw e, t).
Proof.
  intros Hv. unfold notify_handler, io_bind, lift. rewrite Hv. reflexivity.
Qed.

Lemma notify_handler_throws_witness :
  notify_handler example_client returning
    (notification unconvertible (str "O1") (str "U1") (str "10.00")
                  (str "9.50") (str "74B9C32E2193536FABA89038613BA834")) []
  = (Throw cannot_convert, []).
Proof. apply notify_handler_throws. reflexivity. Defined.

(** Membership in a trace that is written out. *)
Ltac events :=
  simpl; repeat split; try lia; unfold not; intros;
  repeat match goal with
         | H : _ \/ _ |- _ => destruct H
         | H : False |- _ => destruct H
         end;
  try discriminate;
  repeat match goal with
         | H : Invoke _ = Invoke _ |- _ => inversion H; subst; clear H
         | H : Send _ _ = Send _ _ |- _ => inversion H; subst; clear H
         end;
  auto 6.

(** X18. Whatever the client, the callback and the body are, the handler
    adds at most two events to the trace. It calls the callback only
    with the body, and only when the body is verified; it answers 200
    "OK" only when the body is verified and 400 "Invalid signature" only
    when it is refused; it sends no request. *)
Theorem notify_handler_never (bufpay : BufPay) (onPaymentSuccess : callback)
        (body : jsval) (t : list event) :
  exists suffix,
    snd (notify_handler bufpay onPaymentSuccess body t) = t ++ suffix
    /\ (List.length suffix <= 2)%nat
    /\ (forall v, In (Invoke v) suffix ->
                  v = body /\ verifyNotification bufpay body = Ok true)
    /\ (forall status text, In (Send status text) suffix ->
          (status = 200 /\ text = lit "OK"
           /\ verifyNotification bufpay body = Ok true)
          \/ (status = 400 /\ text = lit "Invalid signature"
              /\ verifyNotification bufpay body = Ok false))
    /\ (forall url, ~ In (HttpGet url) suffix)
    /\ (forall url form content_type,
           ~ In (HttpPost url form content_type) suffix).
Proof.
  unfold notify_handler, io_bind, lift, emit, ret.
  destruct (verifyNotification bufpay body) as [[|]|e].
  - destruct onPaymentSuccess as [|f]; [|destruct (f body) as [[]|e]].
    + exists [Send 200 (lit "OK")]. events.
    + exists [Invoke body; Send 200 (lit "OK")].
      split; [simpl; rewrite <- app_assoc; reflexivity | events].
    + exists [Invoke body]. events.
  - exists [Send 400 (lit "Invalid signature")]. events.
  - exists []. split; [simpl; rewrite app_nil_r; reflexivity | events].
Qed.

(** ** The signer: absent values, boundaries and failure *)

(** X19. Over arguments that are all [null] or [undefined], and over no
    argument at all, [#createSignature] returns the digest of the empty
    text, D41D8CD98F00B204E9800998ECF8427E. *)
Theorem createSignature_all_absent (params : list jsval) :
  Forall (fun v => is_present v = false) params ->
  createSignature params = Ok (lit "D41D8CD98F00B204E9800998ECF8427E").
Proof.
  intros H.
  assert (E : filter is_present params = []).
  { induction H as [|v params Hv _ IH]; simpl; [reflexivity|].
    rewrite Hv. exact IH. }
  rewrite (createSignature_texts params []) by (rewrite E; reflexivity).
  vm_compute. reflexivity.
Qed.

Lemma createSignature_all_absent_witness :
  createSignature [VUndefined; VNull; VUndefined]
  = Ok (lit "D41D8CD98F00B204E9800998ECF8427E").
Proof.
  apply createSignature_all_absent.
  repeat constructor.
Defined.

(** X20. Characters that move from the end of a string argument to the
    start of the next one leave the signature as it is: nothing is
    written between two arguments. *)
Theorem createSignature_boundary (before after : list jsval) (a b c : jsstring) :
  createSignature (before ++ VStr (a ++ b) :: VStr c :: after)
  = createSignature (before ++ VStr a :: VStr (b ++ c) :: after).
Proof.
  rewrite !createSignature_refines. unfold spec_signature.
  change (VStr (a ++ b) :: VStr c :: after)
    with ([VStr (a ++ b); VStr c] ++ after).
  change (VStr a :: VStr (b ++ c) :: after)
    with ([VStr a; VStr (b ++ c)] ++ after).
  rewrite !signed_text_app.
  replace (signed_text [VStr a; VStr (b ++ c)])
    with (signed_text [VStr (a ++ b); VStr c]); [reflexivity|].
  simpl. rewrite <- !app_assoc. reflexivity.
Qed.

Lemma ToString_array (elems : list jsval) :
  ToString (VArr elems)
  = bind (mapM element_text elems) (fun ts => Ok (join (lit ",") ts)).
Proof.
  simpl. f_equal.
  induction elems as [|x l IH]; simpl; [reflexivity|].
  rewrite IH. reflexivity.
Qed.

(** The only exception of [String(v)]. *)
Lemma ToString_throws : forall (v : jsval) (e : exn),
    ToString v = Throw e -> e = cannot_convert.
Proof.
  fix IH 1. intros v e. destruct v as [ | | [|] | n | s | elems | props];
    try discriminate.
  - rewrite ToString_array.
    assert (Hl : forall e', mapM element_text elems = Throw e' ->
                            e' = cannot_convert).
    { induction elems as [|x l IHl]; intros e'; simpl; [discriminate|].
      destruct (element_text x) as [tx|ex] eqn:Ex; simpl.
      - destruct (mapM element_text l) as [ts|el]; simpl; [discriminate|].
        intros E; inversion E; subst. apply IHl. reflexivity.
      - intros E; inversion E; subst. apply (IH x).
        destruct x; try discriminate Ex; exact Ex. }
    destruct (mapM element_text elems) as [ts|el]; simpl; [discriminate|].
    intros E; inversion E; subst. apply Hl. reflexivity.
  - simpl. destruct (has_own props (lit "toString")); [|discriminate].
    intros E; inversion E; reflexivity.
Qed.

Lemma mapM_throws (l : list jsval) (e : exn) :
  mapM ToString l = Throw e -> exists v, In v l /\ ToString v = Throw e.
Proof.
  induction l as [|v l IH]; simpl; [discriminate|].
  destruct (ToString v) as [t|ev] eqn:Ev; simpl.
  - destruct (mapM ToString l) as [ts|el]; simpl; [discriminate|].
    intros E; inversion E; subst.
    destruct (IH eq_refl) as [w [Hw Tw]]. exists w. auto.
  - intros E; inversion E; subst. exists v. auto.
Qed.

(** X21. [#createSignature] fails only by the [TypeError] "Cannot
    convert object to primitive value", and only on an argument that is
    present and has no text; when every argument has a text, it returns
    a signature. *)
Theorem createSignature_failure (params : list jsval) :
  (Forall coercible params -> exists sig, createSignature params = Ok sig)
  /\ (forall e, createSignature params = Throw e ->
                e = cannot_convert
                /\ exists v, In v params /\ is_present v = true
                             /\ ToString v = Throw cannot_convert).
Proof.
  split; [apply createSignature_coercible|].
  intros e H. unfold createSignature in H.
  destruct (mapM ToString (filter is_present params)) as [ts|e0] eqn:E;
    [discriminate H|].
  simpl in H. inversion H; subst e0.
  destruct (mapM_throws _ _ E) as [v [Hv Tv]].
  pose proof (ToString_throws v e Tv) as ->.
  split; [reflexivity|]. exists v.
  apply filter_In in Hv. destruct Hv as [Hin Hpres]. auto.
Qed.

Lemma createSignature_failure_witness :
  exists sig, createSignature [str "A1"; VNull; VArr [str "x"; VNull]] = Ok sig.
Proof.
  apply (proj1 (createSignature_failure _)).
  repeat constructor; eexists; reflexivity.
Defined.
